(** * Column dropper, feature subsetter and transaction flattener

    A shallow embedding of the three batch scripts of the repository
    ([code/filterR.py], [code/filterVAR.py] and [data_prep.py]) together
    with the properties their specification states about them.

    Conventions of the embedding:
    - a pandas [DataFrame] is an ordered list of named columns, each column
      carrying the list of its cell values (column-major, as pandas stores
      it); cells are Python values;
    - the file system is a finite map from paths to the tables held by the
      CSV files; the CSV reader and writer are collaborators that round-trip
      a table, so a file is represented by the table it parses to;
    - for the column dropper a finer store keeps the text of the files:
      there a file may be one the reader rejects, each block is read with
      the types inferred from that block, and what is written is the text
      of the values read;
    - Python exceptions are an explicit error type threaded through a small
      error monad. *)

From Stdlib Require Import Ascii QArith DecimalString.
From stdpp Require Import gmap strings list fin_maps sorting.

Set Warnings "-register-all".

(** ** Python values *)

(** A Python [float].  Finite values are kept as the rational they denote;
    the rounding to binary64 done by the interpreter is not part of the
    model ([-0.0] and [0.0], which compare equal in Python, are both
    [FNum 0]). *)
Inductive pyfloat : Type :=
  | FNum (q : Q)
  | FInf (negative : bool)
  | FNaN.

(** The values a cell of a frame can hold: what [json.load] and
    [pd.read_csv] produce. *)
Inductive pyval : Type :=
  | VNone
  | VBool (b : bool)
  | VInt (z : Z)
  | VFloat (f : pyfloat)
  | VStr (s : string)
  | VList (items : list pyval).

(** Exceptions raised by the scripts or by the builtins they call, each
    with the message it is constructed with. *)
Inductive exn : Type :=
  | ValueError (msg : string)
  | KeyError (msg : string)
  | FileNotFoundError (msg : string)
  | IndexError (msg : string)
  | TypeError (msg : string)
  | AttributeError (msg : string)
  | OverflowError (msg : string).

Inductive result (A : Type) : Type :=
  | Ok (a : A)
  | Raise (e : exn).
Arguments Ok {A} a.
Arguments Raise {A} e.

Definition rbind {A B} (m : result A) (k : A → result B) : result B :=
  match m with
  | Ok a => k a
  | Raise e => Raise e
  end.

Definition rmap {A B} (f : A → B) (m : result A) : result B :=
  rbind m (λ a, Ok (f a)).

Notation "'do' x <- m ; k" := (rbind m (λ x, k))
  (at level 10, x name, m at level 100, k at level 200).

(** [apply] of a Series: the function runs on every cell in order and the
    first exception aborts the whole call. *)
Fixpoint apply {A B} (f : A → result B) (cells : list A) : result (list B) :=
  match cells with
  | [] => Ok []
  | x :: rest =>
      do y <- f x;
      do ys <- apply f rest;
      Ok (y :: ys)
  end.

(** ** Strings *)

Definition nl : string := String "010"%char "".

(** [s.endswith(suffix)]: some tail of [s] is [suffix]. *)
Fixpoint endswith (s suffix : string) : bool :=
  String.eqb s suffix ||
  match s with
  | "" => false
  | String _ t => endswith t suffix
  end.

(** [sep.join(parts)] *)
Fixpoint join (sep : string) (parts : list string) : string :=
  match parts with
  | [] => ""
  | [p] => p
  | p :: rest => p +:+ sep +:+ join sep rest
  end.

(** [str(n)] for a non-negative integer. *)
Definition str_nat (n : nat) : string :=
  NilEmpty.string_of_uint (Nat.to_uint n).

(** [repr(s)] of a string: single quotes, unless the string holds a single
    quote and no double quote; backslash, the enclosing quote and control
    characters are escaped.  Bytes above 127 (the UTF-8 encoding of
    printable characters) are kept. *)
Definition squote : ascii := "'"%char.
Definition dquote : ascii := "034"%char.
Definition backslash : ascii := "\"%char.

Definition hex_digit (n : N) : ascii :=
  match String.get (N.to_nat n) "0123456789abcdef" with
  | Some c => c
  | None => "0"%char
  end.

Definition repr_char (quote c : ascii) : string :=
  let n := N_of_ascii c in
  if decide (c = backslash) then String backslash (String backslash "")
  else if decide (c = quote) then String backslash (String c "")
  else if decide (n = 9%N) then String backslash "t"
  else if decide (n = 10%N) then String backslash "n"
  else if decide (n = 13%N) then String backslash "r"
  else if decide (n < 32 ∨ n = 127)%N
       then String backslash (String "x" (String (hex_digit (n / 16)) (String (hex_digit (n mod 16)) "")))
  else String c "".

Fixpoint contains_char (c : ascii) (s : string) : bool :=
  match s with
  | "" => false
  | String c' t => bool_decide (c = c') || contains_char c t
  end.

Fixpoint repr_body (quote : ascii) (s : string) : string :=
  match s with
  | "" => ""
  | String c t => repr_char quote c +:+ repr_body quote t
  end.

Definition py_repr (s : string) : string :=
  let quote :=
    if contains_char squote s && negb (contains_char dquote s) then dquote else squote in
  String quote (repr_body quote s) +:+ String quote "".

(** [str(exc)]: the message, except for a [KeyError], whose text is the
    [repr] of its argument. *)
Definition str_exn (e : exn) : string :=
  match e with
  | KeyError msg => py_repr msg
  | ValueError msg | FileNotFoundError msg | IndexError msg | TypeError msg
  | AttributeError msg | OverflowError msg => msg
  end.

(** ** Paths ([pathlib.Path]) *)

(** An absolute path is the list of its components below the root. *)
Abbreviation Path := (list string).

Definition path_div (p : Path) (child : string) : Path := p ++ [child].
Infix "//" := path_div (at level 40, left associativity).

(** [str(path)] *)
Definition path_str (p : Path) : string :=
  match p with
  | [] => "/"
  | _ => String.concat "" (map (λ c, "/" +:+ c) p)
  end.

(** [path.name]: the final component. *)
Definition path_name (p : Path) : string := List.last p "".

(** ** Frames and the file store *)

Abbreviation DataFrame := (list (string * list pyval)).

Definition columns (df : DataFrame) : list string := map fst df.

(** [df.shape[0]] *)
Definition nrows (df : DataFrame) : nat :=
  match df with
  | [] => 0
  | (_, cells) :: _ => length cells
  end.

(** Every column has as many cells as the frame has rows. *)
Definition aligned (df : DataFrame) : Prop :=
  Forall (λ c, length c.2 = nrows df) df.

(** The outcome of a run of a script's [main]. *)
Record outcome : Type := Outcome {
  exit_status : Z;
  files : gmap Path DataFrame;
  stdout : list string;
  stderr : list string;
}.

(** [pd.read_csv(path, chunksize=n)]: the successive blocks of at most [n]
    rows.  A file with a header and no rows gives one empty block. *)
Definition chunk_count (rows chunksize : nat) : nat :=
  if decide (rows = 0) then 1 else (rows + chunksize - 1) / chunksize.

Definition chunk_at (chunksize : nat) (table : DataFrame) (k : nat) : DataFrame :=
  map (λ c, (c.1, take chunksize (drop (k * chunksize) c.2))) table.

Definition read_csv_chunks (table : DataFrame) (chunksize : nat) : list DataFrame :=
  map (chunk_at chunksize table) (seq 0 (chunk_count (nrows table) chunksize)).

(** [chunk.drop(columns=labels, errors="ignore")]: every column carrying
    one of the labels goes; labels that name no column are ignored. *)
Definition drop_columns (df : DataFrame) (labels : list string) : DataFrame :=
  filter (λ c, c.1 ∉ labels) df.

(** [frame.to_csv(path, mode="w", header=True, index=False)] *)
Definition to_csv_write (frame : DataFrame) (path : Path)
    (fs : gmap Path DataFrame) : gmap Path DataFrame :=
  <[path := frame]> fs.

(** The rows of [frame] put after the rows of [table], field by field. *)
Fixpoint append_rows (table frame : DataFrame) : option DataFrame :=
  match table, frame with
  | [], [] => Some []
  | (name, cells) :: table', (_, more) :: frame' =>
      rest ← append_rows table' frame';
      Some ((name, cells ++ more) :: rest)
  | _, _ => None
  end.

(** [frame.to_csv(path, mode="a", header=False, index=False)]: the rows are
    appended to the file as they are.  The store holds tables, so the call
    is defined when the file exists and the rows have the width of its
    header; otherwise the file left behind is not a table and the model
    answers [None]. *)
Definition to_csv_append (frame : DataFrame) (path : Path)
    (fs : gmap Path DataFrame) : option (gmap Path DataFrame) :=
  table ← fs !! path;
  table' ← append_rows table frame;
  Some (<[path := table']> fs).

(** ** [code/filterR.py] *)

Module FilterR.
Section FilterR.

(** [Path(__file__).resolve().parents[1]] *)
Variable PROJECT_ROOT : Path.

Definition DATA_DIR : Path := PROJECT_ROOT // "Data".
Definition SOURCE_FILE : Path := DATA_DIR // "Q1_Q260_filtered_30%row_and_column.csv".
Definition OUTPUT_FILE : Path := DATA_DIR // "Q1_Q260_filtered_30%row_and_column_no_R.csv".
Definition CHUNK_SIZE : nat := Z.to_nat 50000.

Definition _columns_to_drop (columns : list string) (suffix : string) : list string :=
  filter (λ column, endswith column suffix = true) columns.

(** The body of the [for] loop of [_write_filtered_csv], over the blocks
    still to come; [is_first_chunk] is the loop's flag. *)
Fixpoint write_chunks (columns_to_drop : list string) (chunks : list DataFrame)
    (is_first_chunk : bool) (fs : gmap Path DataFrame)
    : option (gmap Path DataFrame) :=
  match chunks with
  | [] => Some fs
  | chunk :: rest =>
      let filtered_chunk := drop_columns chunk columns_to_drop in
      fs' ← (if is_first_chunk
             then Some (to_csv_write filtered_chunk OUTPUT_FILE fs)
             else to_csv_append filtered_chunk OUTPUT_FILE fs);
      write_chunks columns_to_drop rest false fs'
  end.

(** The reader iterates over the source file while the loop writes the
    output file, a different path: the blocks are those of the source as
    it is when the loop starts. *)
Definition _write_filtered_csv (columns_to_drop : list string)
    (fs : gmap Path DataFrame) : option (gmap Path DataFrame) :=
  source ← fs !! SOURCE_FILE;
  write_chunks columns_to_drop (read_csv_chunks source CHUNK_SIZE) true fs.

Definition missing_source_msg : string :=
  "Source file not found. Expected input at " +:+ path_str SOURCE_FILE +:+ nl +:+
  "Update Code/filter.py if the dataset has moved.".

Definition main (fs : gmap Path DataFrame) : option outcome :=
  match fs !! SOURCE_FILE with
  | None => Some (Outcome 1%Z fs [] [missing_source_msg])
  | Some source =>
      let out1 := "Loading column headers from " +:+ path_name SOURCE_FILE +:+ "..." in
      first_chunk ← head (read_csv_chunks source CHUNK_SIZE);
      let columns_to_drop := _columns_to_drop (columns first_chunk) "R" in
      if decide (columns_to_drop = []) then
        Some (Outcome 0%Z fs
                [out1; "No columns ending with 'R' found; nothing to filter."] [])
      else
        let out2 :=
          "Dropping columns (sample): " +:+ join ", " (take 5 columns_to_drop)
          +:+ (if decide (5 < length columns_to_drop) then "..." else "") in
        fs' ← _write_filtered_csv columns_to_drop fs;
        let out3 :=
          "Filtered dataset written to " +:+ path_name OUTPUT_FILE +:+ " with "
          +:+ str_nat (length columns_to_drop) +:+ " columns removed." in
        Some (Outcome 0%Z fs' [out1; out2; out3] [])
  end.

End FilterR.
End FilterR.

(** ** [code/filterVAR.py] *)

(** [COLUMN_GROUPS]: group label to the ordered (source id, renamed id)
    pairs of the group. *)
Definition COLUMN_GROUPS : list (string * list (string * string)) :=
  [ ("com",
     [ ("Q47", "SHealth");
       ("Q50", "FinSat");
       ("Q56", "FinSat_ComParent");
       ("Q142", "RiskUnemployed");
       ("Q143", "EducationNextGen") ]);
    ("aut",
     [ ("Q48", "FreeChoice");
       ("Q131", "Security");
       ("Q146", "PublicSecurity_War");
       ("Q147", "PublicSecurity_Terrorism");
       ("Q148", "PublicSecurity_CivilWar");
       ("Q251", "Democracy");
       ("Q253", "HumanRights") ]);
    ("rel",
     [ ("Q57", "Trust");
       ("Q58", "Trust_Family");
       ("Q59", "Trust_Neighbors");
       ("Q60", "Trust_Acquaintances");
       ("Q61", "Trust_Strangers");
       ("Q62", "Trust_OtherReligion");
       ("Q63", "Trust_OtherNationality");
       ("Q94", "Membership_Religious");
       ("Q95", "Membership_Sport");
       ("Q96", "Membership_Art");
       ("Q97", "Membership_LaborUnion");
       ("Q98", "Membership_Political");
       ("Q99", "Membership_Environmental");
       ("Q100", "Membership_Professional");
       ("Q101", "Membership_Charity");
       ("Q102", "Membership_Consumer");
       ("Q103", "Membership_SelfHelp");
       ("Q104", "Membership_Women");
       ("Q105", "Membership_Other");
       ("Q164", "GodImportance");
       ("Q171", "ReligiousAttendance");
       ("Q172", "Pray");
       ("Q254", "NationalPride");
       ("Q255", "CloseToTown");
       ("Q256", "CloseToRegion");
       ("Q257", "CloseToCountry");
       ("Q258", "CloseToContinent");
       ("Q259", "CloseToWorld") ]) ].

(** [pd.read_csv(path, usecols=pred)]: the columns of the file whose name
    satisfies the predicate, in file order. *)
Definition read_csv_usecols (fs : gmap Path DataFrame) (path : Path)
    (usecols : string → Prop) `{∀ col, Decision (usecols col)} : result DataFrame :=
  match fs !! path with
  | Some table => Ok (filter (λ c, usecols c.1) table)
  | None =>
      Raise (FileNotFoundError
               ("[Errno 2] No such file or directory: " +:+ py_repr (path_str path)))
  end.

(** [frame.rename(columns=mapping)]: labels in the mapping are replaced,
    the others stay. *)
Definition rename (frame : DataFrame) (mapping : gmap string string) : DataFrame :=
  map (λ c, (default c.1 (mapping !! c.1), c.2)) frame.

(** [frame[labels]] with a list of labels: for each label in turn the
    columns carrying it; a label that names no column is a [KeyError]
    (pandas words its message differently across versions; the model keeps
    the labels not found). *)
Definition getitem_columns (frame : DataFrame) (labels : list string) : result DataFrame :=
  let not_found := filter (λ label, label ∉ columns frame) labels in
  if decide (not_found = []) then
    Ok (flat_map (λ label, filter (λ c, c.1 = label) frame) labels)
  else
    Raise (KeyError ("[" +:+ join ", " (map py_repr not_found) +:+ "] not in index")).

Module FilterVAR.
Section FilterVAR.

(** [Path(__file__).resolve().parents[1]] *)
Variable PROJECT_ROOT : Path.

(** The module-level table [COLUMN_GROUPS], which the user is asked to
    populate before running the script. *)
Variable groups : list (string * list (string * string)).

Definition DATA_DIR : Path := PROJECT_ROOT // "data".
Definition DEFAULT_SOURCE : Path := DATA_DIR // "Q1_Q260_filtered_30%row_and_column_no_R.csv".
Definition FALLBACK_SOURCE : Path := DATA_DIR // "Q1_Q260_filtered_30%row_and_column.csv".
Definition OUTPUT_FILE : Path := DATA_DIR // "lifesat_sdt_subset.csv".

Definition TARGET_COLUMN : string := "Q49".
Definition TARGET_RENAMED : string := "LifeSat".

Definition _select_source_file (fs : gmap Path DataFrame) : result Path :=
  if decide (is_Some (fs !! DEFAULT_SOURCE)) then Ok DEFAULT_SOURCE
  else if decide (is_Some (fs !! FALLBACK_SOURCE)) then Ok FALLBACK_SOURCE
  else Raise (FileNotFoundError
                ("Neither filtered nor raw WVS CSV found. " +:+
                 "Looked for " +:+ path_name DEFAULT_SOURCE +:+ " and "
                 +:+ path_name FALLBACK_SOURCE +:+ ".")).

Definition _column_pairs : list (string * string) :=
  flat_map (λ group, group.2) groups.

Definition _ordered_columns : list string :=
  let renamed_predictors := map snd _column_pairs in
  TARGET_RENAMED :: renamed_predictors.

Definition _validate_columns (expected available : list string) : result unit :=
  let missing : gset string := list_to_set expected ∖ list_to_set available in
  if decide (missing ≠ ∅) then
    let formatted := join ", " (merge_sort String.le (elements missing)) in
    Raise (KeyError
             ("Missing columns in source CSV. Update the predictor lists or " +:+
              "regenerate the input. Missing: " +:+ formatted))
  else Ok ().

Definition build_dataset (fs : gmap Path DataFrame) : result DataFrame :=
  do source <- _select_source_file fs;
  let predictor_pairs := _column_pairs in
  let keep_columns := TARGET_COLUMN :: map fst predictor_pairs in
  if decide (length keep_columns = 1) then
    Raise (ValueError "Populate COLUMN_GROUPS before running the script.")
  else
    do frame <- read_csv_usecols fs source (λ col, col ∈ keep_columns);
    do _ <- _validate_columns keep_columns (columns frame);
    let rename_map : gmap string string :=
      foldl (λ m p, <[p.1 := p.2]> m) {[TARGET_COLUMN := TARGET_RENAMED]} predictor_pairs in
    let frame := rename frame rename_map in
    getitem_columns frame _ordered_columns.

Definition main (fs : gmap Path DataFrame) : outcome :=
  match build_dataset fs with
  | Raise exc =>
      Outcome 1 fs [] ["Error while constructing SDT feature set: " +:+ str_exn exc]
  | Ok dataset =>
      Outcome 0 (to_csv_write dataset OUTPUT_FILE fs)
        ["Saved SDT subset with " +:+ str_nat (nrows dataset) +:+ " rows to "
         +:+ path_name OUTPUT_FILE +:+ "."] []
  end.

End FilterVAR.
End FilterVAR.

(** ** [data_prep.py] *)

(** *** The builtins the script calls *)

(** Truth value of a Python object, as tested by [if x]. *)
Definition truthy (x : pyval) : bool :=
  match x with
  | VNone => false
  | VBool b => b
  | VInt z => negb (z =? 0)%Z
  | VFloat (FNum q) => negb (Qnum q =? 0)%Z
  | VFloat (FInf _) | VFloat FNaN => true
  | VStr s => negb (String.eqb s "")
  | VList items => match items with [] => false | _ => true end
  end.

(** [type(x).__name__] *)
Definition type_name (x : pyval) : string :=
  match x with
  | VNone => "NoneType"
  | VBool _ => "bool"
  | VInt _ => "int"
  | VFloat _ => "float"
  | VStr _ => "str"
  | VList _ => "list"
  end.

(** [s.split(sep)] with a one-character separator: the pieces between
    the occurrences of [sep], always at least one piece. *)
Fixpoint split (sep : ascii) (s : string) : list string :=
  match s with
  | "" => [""]
  | String c t =>
      if decide (c = sep) then "" :: split sep t
      else match split sep t with
           | piece :: pieces => String c piece :: pieces
           | [] => [String c ""]
           end
  end.

(** [x.split('/')], an attribute only strings have. *)
Definition split_slash (x : pyval) : result (list string) :=
  match x with
  | VStr s => Ok (split "/"%char s)
  | _ => Raise (AttributeError
                  ("'" +:+ type_name x +:+ "' object has no attribute 'split'"))
  end.

(** [parts[i]] *)
Definition getitem_list {A} (parts : list A) (i : nat) : result A :=
  match parts !! i with
  | Some p => Ok p
  | None => Raise (IndexError "list index out of range")
  end.

(** White space as [float] strips it: tab, line feed, vertical tab, form
    feed, carriage return and space. *)
Definition is_space (c : ascii) : bool :=
  let n := N_of_ascii c in
  bool_decide (9 ≤ n ≤ 13 ∨ n = 32)%N.

Fixpoint lstrip (l : list ascii) : list ascii :=
  match l with
  | c :: rest => if is_space c then lstrip rest else l
  | [] => []
  end.

Definition strip (l : list ascii) : list ascii :=
  rev (lstrip (rev (lstrip l))).

Definition digit_value (c : ascii) : option N :=
  let n := N_of_ascii c in
  if decide (48 ≤ n ≤ 57)%N then Some (n - 48)%N else None.

Definition lower (c : ascii) : ascii :=
  let n := N_of_ascii c in
  if decide (65 ≤ n ≤ 90)%N then ascii_of_N (n + 32) else c.

(** The rest of a [digitpart] once a digit has been read: digits, each
    optionally preceded by one underscore. *)
Fixpoint digitpart_rest (l : list ascii) : list N * list ascii :=
  match l with
  | c :: rest =>
      match digit_value c with
      | Some d => let '(ds, l') := digitpart_rest rest in (d :: ds, l')
      | None =>
          if decide (c = "_"%char) then
            match rest with
            | c' :: rest' =>
                match digit_value c' with
                | Some d => let '(ds, l') := digitpart_rest rest' in (d :: ds, l')
                | None => ([], l)
                end
            | [] => ([], l)
            end
          else ([], l)
      end
  | [] => ([], [])
  end.

(** A possibly absent [digitpart] at the head of [l]. *)
Definition digitpart (l : list ascii) : list N * list ascii :=
  match l with
  | c :: rest =>
      match digit_value c with
      | Some d => let '(ds, l') := digitpart_rest rest in (d :: ds, l')
      | None => ([], l)
      end
  | [] => ([], [])
  end.

Definition sign (l : list ascii) : bool * list ascii :=
  match l with
  | "+"%char :: rest => (false, rest)
  | "-"%char :: rest => (true, rest)
  | _ => (false, l)
  end.

(** An optional [exponent]: read only when it is complete. *)
Definition exponent (l : list ascii) : Z * list ascii :=
  match l with
  | c :: rest =>
      if decide (lower c = "e"%char) then
        let '(negative, rest') := sign rest in
        match digitpart rest' with
        | ([], _) => (0%Z, l)
        | (ds, l') =>
            let e := Z.of_N (foldl (λ acc d, 10 * acc + d)%N 0%N ds) in
            ((if negative then - e else e)%Z, l')
        end
      else (0%Z, l)
  | [] => (0%Z, l)
  end.

(** The number [m * 10^e], negated when [negative]. *)
Definition decimal (negative : bool) (m : N) (e : Z) : Q :=
  let z := (if negative then - Z.of_N m else Z.of_N m)%Z in
  if (0 <=? e)%Z then inject_Z (z * 10 ^ e)
  else Qred (Qmake z (Z.to_pos (10 ^ (- e)))).

(** [floatnumber]: [[digitpart] "." digitpart | digitpart ["."]] followed
    by an optional exponent, with nothing left over. *)
Definition floatnumber (negative : bool) (l : list ascii) : option pyfloat :=
  let '(int_digits, l1) := digitpart l in
  let '(frac_digits, l2) :=
    match l1 with
    | "."%char :: rest => digitpart rest
    | _ => ([], l1)
    end in
  match int_digits ++ frac_digits with
  | [] => None
  | digits =>
      let '(e, l3) := exponent l2 in
      match l3 with
      | [] =>
          let m := foldl (λ acc d, 10 * acc + d)%N 0%N digits in
          Some (FNum (decimal negative m (e - Z.of_nat (length frac_digits))))
      | _ => None
      end
  end.

(** [float(s)] for a string: surrounding white space is stripped, then a
    sign and [inf], [infinity], [nan] (in any case) or a [floatnumber]. *)
Definition float_of_str (s : string) : result pyfloat :=
  let '(negative, body) := sign (strip (String.list_ascii_of_string s)) in
  let word := String.string_of_list_ascii (map lower body) in
  let parsed :=
    if decide (word = "inf" ∨ word = "infinity") then Some (FInf negative)
    else if decide (word = "nan") then Some FNaN
    else floatnumber negative body in
  match parsed with
  | Some f => Ok f
  | None => Raise (ValueError ("could not convert string to float: " +:+ py_repr s))
  end.

(** Integers at or above this magnitude round to [2^1024] and overflow. *)
Definition float_overflow_bound : Z := 2 ^ 1024 - 2 ^ 970.

(** [float(x)] *)
Definition float (x : pyval) : result pyfloat :=
  match x with
  | VStr s => float_of_str s
  | VFloat f => Ok f
  | VInt z =>
      if decide (Z.abs z < float_overflow_bound)%Z then Ok (FNum (inject_Z z))
      else Raise (OverflowError "int too large to convert to float")
  | VBool b => Ok (FNum (inject_Z (if b then 1 else 0)))
  | VNone | VList _ =>
      Raise (TypeError
               ("float() argument must be a string or a real number, not '"
                +:+ type_name x +:+ "'"))
  end.

(** [df[key]]: the cells of the column. *)
Fixpoint getitem_column (df : DataFrame) (key : string) : result (list pyval) :=
  match df with
  | [] => Raise (KeyError key)
  | (name, cells) :: rest =>
      if decide (name = key) then Ok cells else getitem_column rest key
  end.

(** [df[key] = cells]: an existing column is replaced where it stands, a
    new one is added after the last. *)
Fixpoint setitem_column (df : DataFrame) (key : string) (cells : list pyval) : DataFrame :=
  match df with
  | [] => [(key, cells)]
  | (name, old) :: rest =>
      if decide (name = key) then (key, cells) :: rest
      else (name, old) :: setitem_column rest key cells
  end.

Module DataPrep.

(** [lambda x: float(x) if x else None] *)
Definition to_float (x : pyval) : result pyval :=
  if truthy x then rmap VFloat (float x) else Ok VNone.

(** [lambda x: float(x.split('/')[i]) if x else None] *)
Definition split_part (i : nat) (x : pyval) : result pyval :=
  if truthy x then
    do parts <- split_slash x;
    do part <- getitem_list parts i;
    rmap VFloat (float (VStr part))
  else Ok VNone.

(** [df[dst] = df[src].apply(f)] *)
Definition assign_apply (dst src : string) (f : pyval → result pyval)
    (df : DataFrame) : result DataFrame :=
  do cells <- getitem_column df src;
  do cells' <- apply f cells;
  Ok (setitem_column df dst cells').

(** The transformations of the script, from the flattened records to
    the frame that is written out. *)
Definition transform (df : DataFrame) : result DataFrame :=
  do df <- assign_apply "estate_map_latitude" "estate_map_latitude" to_float df;
  do df <- assign_apply "estate_map_longitude" "estate_map_longitude" to_float df;
  do df <- assign_apply "transaction_price" "transaction_price" to_float df;
  do df <- assign_apply "discount_rate" "discount_rate" to_float df;
  do df <- assign_apply "saleable_floor_area_per_sq_m" "saleable_floor_area" (split_part 0) df;
  do df <- assign_apply "saleable_floor_area_per_sq_ft" "saleable_floor_area" (split_part 1) df;
  do df <- assign_apply "transaction_price_per_sq_m" "transaction_price_per_sq" (split_part 0) df;
  do df <- assign_apply "transaction_price_per_sq_ft" "transaction_price_per_sq" (split_part 1) df;
  Ok df.

(** The script from the frame [pd.json_normalize(records)] on: the two
    output files, in the working directory [cwd], are written only when
    every transformation went through. *)
Definition script (cwd : Path) (df : DataFrame) (fs : gmap Path DataFrame)
    : result (gmap Path DataFrame) :=
  do df <- transform df;
  let fs := to_csv_write df (cwd // "tps_sale_transactions_en.csv") fs in
  let fs := to_csv_write df (cwd // "tps_sale_transactions_en.xlsx") fs in
  Ok fs.

End DataPrep.

(** ** [code/filterR.py] on the text of the files *)

(** The store above keeps for each file the table it parses to.  The
    model below makes explicit what the reader and the writer do to the
    text of a file: a file that exists may be one [pd.read_csv] rejects; the
    cells of a readable file are text fields; the reader gives the cells of
    each column of each block the values and the type it infers from that
    block alone; and the writer turns the values back into text. *)

Abbreviation CsvTable := (list (string * list string)).

(** Exceptions that escape [pd.read_csv]. *)
Inductive reader_error : Type :=
| FileNotFound
| EmptyDataError
| ParserError.

(** Why the reader rejects a file that exists: the file is empty, so
    there are no columns to parse, or a record of its first block has more
    fields than the header. *)
Inductive defect : Type :=
| EmptyFile
| BadRecord.

Definition raised_on (d : defect) : reader_error :=
match d with
| EmptyFile => EmptyDataError
| BadRecord => ParserError
end.

(** A file of the store: one the reader raises on when it reads the
    first block, or one that holds a table of text fields. *)
Inductive csv_file : Type :=
| Unreadable (d : defect)
| Readable (table : CsvTable).

(** How a run of the script ends: [main] returns a status, or an
    exception escapes it and the interpreter exits with status 1 after
    printing the traceback. *)
Inductive ending : Type :=
| Returned (status : Z)
| Uncaught (e : reader_error).


(** A run: its ending, the files it leaves and what the script itself
    printed. *)
Record run : Type := Run {
run_ending : ending;
run_files : gmap Path csv_file;
run_stdout : list string;
run_stderr : list string;
}.

(** What the loop of [_write_filtered_csv] comes to. *)
Inductive written : Type :=
| Written (fs : gmap Path csv_file)
| Raised (e : reader_error).

Definition text_nrows (table : CsvTable) : nat :=
match table with
| [] => 0
| (_, cells) :: _ => length cells
end.

Definition text_aligned (table : CsvTable) : Prop :=
Forall (λ c, length c.2 = text_nrows table) table.

(** Rows [k * chunksize] to [(k + 1) * chunksize - 1] of a column. *)
Definition block (chunksize k : nat) (cells : list string) : list string :=
take chunksize (drop (k * chunksize) cells).

(** The rows of [more] put after the rows of [table], field by field. *)
Fixpoint append_text (table more : CsvTable) : option CsvTable :=
match table, more with
| [], [] => Some []
| (name, cells) :: table', (_, cells') :: more' =>
    rest ← append_text table' more';
    Some ((name, cells ++ cells') :: rest)
| _, _ => None
end.

Module FilterRText.
Section FilterRText.

Variable PROJECT_ROOT : Path.

(** The values [pd.read_csv] gives to the cells of one column of one
    block, with the type it infers for them, and the text [to_csv] writes
    for a value. *)
Variable infer : list string → list pyval.
Variable format : pyval → string.

(** Block [k] of [pd.read_csv(path, chunksize=n)]. *)
Definition read_block (chunksize : nat) (table : CsvTable) (k : nat) : DataFrame :=
map (λ c, (c.1, infer (block chunksize k c.2))) table.

Definition read_csv_blocks (table : CsvTable) (chunksize : nat) : list DataFrame :=
map (read_block chunksize table) (seq 0 (chunk_count (text_nrows table) chunksize)).

(** The text of a frame as [to_csv] writes it. *)
Definition render (frame : DataFrame) : CsvTable :=
map (λ c, (c.1, map format c.2)) frame.

(** [frame.to_csv(path, mode="w", header=True, index=False)] *)
Definition to_csv_write (frame : DataFrame) (path : Path)
  (fs : gmap Path csv_file) : gmap Path csv_file :=
<[path := Readable (render frame)]> fs.

(** [frame.to_csv(path, mode="a", header=False, index=False)]: defined, as
    above, when the file holds a table of the width of the rows. *)
Definition to_csv_append (frame : DataFrame) (path : Path)
  (fs : gmap Path csv_file) : option (gmap Path csv_file) :=
match fs !! path with
| Some (Readable table) =>
    table' ← append_text table (render frame);
    Some (<[path := Readable table']> fs)
| _ => None
end.

Fixpoint write_chunks (columns_to_drop : list string) (chunks : list DataFrame)
  (is_first_chunk : bool) (fs : gmap Path csv_file)
  : option (gmap Path csv_file) :=
match chunks with
| [] => Some fs
| chunk :: rest =>
    let filtered_chunk := drop_columns chunk columns_to_drop in
    fs' ← (if is_first_chunk
           then Some (to_csv_write filtered_chunk (FilterR.OUTPUT_FILE PROJECT_ROOT) fs)
           else to_csv_append filtered_chunk (FilterR.OUTPUT_FILE PROJECT_ROOT) fs);
    write_chunks columns_to_drop rest false fs'
end.

(** The reader raises before the first pass of the loop when the source
    is missing or is a file it rejects. *)
Definition _write_filtered_csv (columns_to_drop : list string)
  (fs : gmap Path csv_file) : option written :=
match fs !! FilterR.SOURCE_FILE PROJECT_ROOT with
| None => Some (Raised FileNotFound)
| Some (Unreadable d) => Some (Raised (raised_on d))
| Some (Readable source) =>
    Written <$> write_chunks columns_to_drop
                  (read_csv_blocks source FilterR.CHUNK_SIZE) true fs
end.

(** [main]: the test [SOURCE_FILE.exists()] is the only guard; the two
    calls of the reader are not inside a [try]. *)
Definition main (fs : gmap Path csv_file) : option run :=
match fs !! FilterR.SOURCE_FILE PROJECT_ROOT with
| None => Some (Run (Returned 1) fs [] [FilterR.missing_source_msg PROJECT_ROOT])
| Some file =>
    let out1 :=
      "Loading column headers from "
      +:+ path_name (FilterR.SOURCE_FILE PROJECT_ROOT) +:+ "..." in
    match file with
    | Unreadable d => Some (Run (Uncaught (raised_on d)) fs [out1] [])
    | Readable source =>
        first_chunk ← head (read_csv_blocks source FilterR.CHUNK_SIZE);
        let columns_to_drop := FilterR._columns_to_drop (columns first_chunk) "R" in
        if decide (columns_to_drop = []) then
          Some (Run (Returned 0) fs
                  [out1; "No columns ending with 'R' found; nothing to filter."] [])
        else
          let out2 :=
            "Dropping columns (sample): " +:+ join ", " (take 5 columns_to_drop)
            +:+ (if decide (5 < length columns_to_drop) then "..." else "") in
          outcome ← _write_filtered_csv columns_to_drop fs;
          match outcome with
          | Raised e => Some (Run (Uncaught e) fs [out1; out2] [])
          | Written fs' =>
              let out3 :=
                "Filtered dataset written to "
                +:+ path_name (FilterR.OUTPUT_FILE PROJECT_ROOT) +:+ " with "
                +:+ str_nat (length columns_to_drop) +:+ " columns removed." in
              Some (Run (Returned 0) fs' [out1; out2; out3] [])
          end
    end
end.

End FilterRText.
End FilterRText.

(** The cells of a column as they are written: each block read, then
    written, on its own. *)
Definition reread (infer : list string → list pyval) (format : pyval → string)
  (chunksize blocks : nat) (cells : list string) : list string :=
flat_map (λ k, map format (infer (block chunksize k cells))) (seq 0 blocks).

(** *** Inference and formatting on blocks of integers and text *)

(** The strings the reader takes for a missing value. *)
Definition na_values : list string :=
[ ""; "#N/A"; "#N/A N/A"; "#NA"; "-1.#IND"; "-1.#QNAN"; "-NaN"; "-nan";
  "1.#IND"; "1.#QNAN"; "<NA>"; "N/A"; "NA"; "NULL"; "NaN"; "None"; "n/a";
  "nan"; "null" ].

(** The digits of a string made of decimal digits only, one at least. *)
Definition digitpart_plain (l : list ascii) : option (list N) :=
match l with
| [] => None
| _ => mapM digit_value l
end.

(** An integer literal: an optional sign and decimal digits. *)
Definition int_literal (s : string) : option Z :=
let '(negative, body) := sign (String.list_ascii_of_string s) in
match digitpart_plain body with
| Some digits =>
    let n := Z.of_N (foldl (λ acc d, 10 * acc + d)%N 0%N digits) in
    Some (if negative then - n else n)%Z
| None => None
end.

Definition in_int64 (z : Z) : bool :=
bool_decide (- 2 ^ 63 ≤ z < 2 ^ 63)%Z.

(** The reader's inference on two kinds of block: a block in which every
    cell is an integer literal of 64 bits is a block of integers; a block
    with a cell that is neither a number, a boolean nor a missing-value
    marker is a block of text, in which the markers are NaN.  The other
    kinds of block (floats, integers with missing values, booleans, dates)
    are not told from text by this function, which is used on blocks of
    the first two kinds only. *)
Definition infer_int_or_text (cells : list string) : list pyval :=
match mapM int_literal cells with
| Some ints =>
    if forallb in_int64 ints then map VInt ints
    else map VStr cells
| None => map (λ s, if decide (s ∈ na_values) then VFloat FNaN else VStr s) cells
end.

(** [str(z)] for an integer. *)
Definition str_int (z : Z) : string :=
if decide (z < 0)%Z then "-" +:+ str_nat (Z.to_nat (- z)) else str_nat (Z.to_nat z).

(** The text that is written for an integer, a string or a missing
    value. *)
Definition format_int_or_text (v : pyval) : string :=
match v with
| VInt z => str_int z
| VStr s => s
| _ => ""
end.

(** ** Notions used in the statements *)

(** The frame cut down to its first [n] rows. *)
Definition truncated (n : nat) (df : DataFrame) : DataFrame :=
  map (λ c, (c.1, take n c.2)) df.

(** The cells of the column named [key], none when there is no such
    column. *)
Definition cells_of (df : DataFrame) (key : string) : list pyval :=
  match getitem_column df key with
  | Ok cells => cells
  | Raise _ => []
  end.

(** The (source id, output name) pairs of a configuration, target first. *)
Definition all_pairs (groups : list (string * list (string * string)))
    : list (string * string) :=
  (FilterVAR.TARGET_COLUMN, FilterVAR.TARGET_RENAMED) :: FilterVAR._column_pairs groups.

(** The source ids are pairwise distinct, and so are the output names. *)
Definition one_to_one (pairs : list (string * string)) : Prop :=
  NoDup (map fst pairs) ∧ NoDup (map snd pairs).

(** The four fields the flattener coerces in place. *)
Definition coerced_fields : list string :=
  ["estate_map_latitude"; "estate_map_longitude"; "transaction_price"; "discount_rate"].

(** The derived columns of the compound fields: new column, source
    column, index of the part. *)
Definition compound_fields : list (string * string * nat) :=
  [ ("saleable_floor_area_per_sq_m", "saleable_floor_area", 0);
    ("saleable_floor_area_per_sq_ft", "saleable_floor_area", 1);
    ("transaction_price_per_sq_m", "transaction_price_per_sq", 0);
    ("transaction_price_per_sq_ft", "transaction_price_per_sq", 1) ].

(** Column [dst] of [df'] is column [src] of [df] with [f] applied to
    each cell, row by row. *)
Definition derived (df df' : DataFrame) (dst src : string)
    (f : pyval → result pyval) : Prop :=
  ∃ cells cells',
    getitem_column df src = Ok cells
    ∧ getitem_column df' dst = Ok cells'
    ∧ Forall2 (λ x y, f x = Ok y) cells cells'.

(** The columns the flattener assigns to. *)
Definition assigned_columns : list string :=
  coerced_fields ++ map (λ t, t.1.1) compound_fields.

(** ** Sample inputs *)

Module Samples.

Definition root : Path := ["home"; "analyst"; "wvs"].

(** The scenario of the specification: columns [A, B_R, C, D_R]. *)
Definition survey : DataFrame :=
  [ ("A", [VInt 1; VInt 2; VInt 3]);
    ("B_R", [VInt 4; VInt 5; VInt 6]);
    ("C", [VStr "x"; VNone; VStr "z"]);
    ("D_R", [VFloat (FNum 0.5); VFloat FNaN; VInt 9]) ].

Definition survey_store : gmap Path DataFrame :=
  {[ FilterR.SOURCE_FILE root := survey ]}.

(** A file none of whose columns ends in [R]. *)
Definition plain : DataFrame :=
  [ ("A", [VInt 1; VInt 2]); ("Rate", [VInt 3; VInt 4]) ].

Definition plain_store : gmap Path DataFrame :=
  {[ FilterR.SOURCE_FILE root := plain ]}.

(** A raw extract holding every declared column, in an order of its
    own, and one more; the first respondent answers 7 to Q49 and 3 to
    Q47. *)
Definition wvs : DataFrame :=
  ("Q1", [VInt 1; VInt 2])
  :: rev (map (λ p : string * string,
                 (p.1, if decide (p.1 = "Q49") then [VInt 7; VInt 5]
                       else if decide (p.1 = "Q47") then [VInt 3; VInt 4]
                       else [VStr p.2; VNone]))
            (all_pairs COLUMN_GROUPS)).

Definition wvs_store : gmap Path DataFrame :=
  {[ FilterVAR.FALLBACK_SOURCE root := wvs ]}.

(** The same extract without the columns Q59 and Q253. *)
Definition wvs_short : DataFrame :=
  filter (λ c, c.1 ≠ "Q59" ∧ c.1 ≠ "Q253") wvs.

Definition wvs_short_store : gmap Path DataFrame :=
  {[ FilterVAR.DEFAULT_SOURCE root := wvs_short ]}.

(** Flattened transaction records. *)
Definition transactions : DataFrame :=
  [ ("id", [VInt 1; VInt 2; VInt 3]);
    ("estate_map_latitude", [VStr "22.3"; VStr ""; VStr "0"]);
    ("estate_map_longitude", [VStr "114.1"; VNone; VInt 0]);
    ("transaction_price", [VStr "5.5"; VInt 0; VInt 7]);
    ("discount_rate", [VStr "0"; VStr "3"; VFloat (FNum 0)]);
    ("saleable_floor_area", [VStr "500/5382"; VNone; VStr ""]);
    ("transaction_price_per_sq", [VStr "12.5/34.2"; VStr ""; VNone]) ].

(** The same records with one compound field that holds no number. *)
Definition transactions_malformed : DataFrame :=
  setitem_column transactions "saleable_floor_area"
    [VStr "500/5382"; VStr "abc"; VStr ""].

(** The same records with a compound field missing from the second. *)
Definition transactions_missing : DataFrame :=
  setitem_column transactions "transaction_price_per_sq"
    [VStr "12.5/34.2"; VFloat FNaN; VNone].

Definition cwd : Path := ["home"; "analyst"; "tps"].

(** A source whose first column holds codes with leading zeros. *)
Definition codes : CsvTable :=
  [ ("id", ["01"; "02"]); ("name", ["ann"; "bob"]); ("B_R", ["7"; "8"]) ].

Definition codes_store : gmap Path csv_file :=
  {[ FilterR.SOURCE_FILE root := Readable codes ]}.

(** Codes of which the third is not a number. *)
Definition mixed : CsvTable :=
  [ ("id", ["01"; "02"; "x"]); ("B_R", ["7"; "8"; "9"]) ].

(** A source that reads back as it is written. *)
Definition tidy : CsvTable :=
  [ ("id", ["1"; "2"]); ("name", ["ann"; "bob"]); ("B_R", ["7"; "8"]) ].

Definition tidy_store : gmap Path csv_file :=
  {[ FilterR.SOURCE_FILE root := Readable tidy ]}.


End Samples.
(** * Properties *)

(** ** Frames *)

Lemma string_app_nil_r (s : string) : s +:+ "" = s.
Proof.
  induction s as [|c s IH]; [done|].
  change (String c s +:+ "") with (String c (s +:+ "")). by rewrite IH.
Qed.

Lemma string_app_assoc (s1 s2 s3 : string) : (s1 +:+ s2) +:+ s3 = s1 +:+ s2 +:+ s3.
Proof.
  induction s1 as [|c s1 IH]; [done|].
  change (String c ((s1 +:+ s2) +:+ s3) = String c (s1 +:+ s2 +:+ s3)). by rewrite IH.
Qed.

Section frame_lemmas.
Implicit Types (df table : DataFrame) (labels : list string).

Lemma drop_columns_chunk_at c df labels k :
  drop_columns (chunk_at c df k) labels = chunk_at c (drop_columns df labels) k.
Proof.
  unfold drop_columns, chunk_at.
  induction df as [|col df IH]; [done|].
  cbn [map]. rewrite !filter_cons; cbn [fst map].
  destruct (decide (col.1 ∉ labels)); cbn [map]; by rewrite IH.
Qed.

Lemma append_rows_chunk c df k :
  append_rows (truncated (k * c) df) (chunk_at c df k)
  = Some (truncated (S k * c) df).
Proof.
  unfold truncated, chunk_at.
  induction df as [|[name cells] df IH]; [done|].
  cbn [map append_rows fst snd]. rewrite IH. cbn [mbind option_bind].
  rewrite take_take_drop. by replace (k * c + c) with (S k * c) by lia.
Qed.

Lemma chunk_count_covers n c : 0 < c → n ≤ chunk_count n c * c.
Proof.
  intros Hc. unfold chunk_count. destruct (decide (n = 0)); [lia|].
  pose proof (Nat.div_mod (n + c - 1) c ltac:(lia)) as Hdm.
  pose proof (Nat.mod_upper_bound (n + c - 1) c ltac:(lia)). lia.
Qed.

Lemma chunk_count_pos n c : 0 < c → 0 < chunk_count n c.
Proof.
  intros Hc. pose proof (chunk_count_covers n c Hc).
  unfold chunk_count in *. destruct (decide (n = 0)); [lia|].
  destruct ((n + c - 1) / c); lia.
Qed.

Lemma aligned_filter (P : string * list pyval → Prop) `{∀ x, Decision (P x)} df c :
  aligned df → c ∈ filter P df → length c.2 = nrows df.
Proof.
  intros Hal [_ Hc]%list_elem_of_filter.
  unfold aligned in Hal. rewrite Forall_forall in Hal. by apply Hal.
Qed.

Lemma truncated_all n df m :
  (∀ c, c ∈ df → length c.2 ≤ n) → n ≤ m → truncated m df = df.
Proof.
  intros Hlen Hnm. unfold truncated.
  induction df as [|[name cells] df IH]; [done|].
  simpl. rewrite IH.
  - rewrite take_ge; [done|].
    specialize (Hlen (name, cells) ltac:(left)). simpl in Hlen. lia.
  - intros c Hc. apply Hlen. by right.
Qed.

Lemma filter_ext_elem {A} (P Q : A → Prop) `{∀ x, Decision (P x)}
    `{∀ x, Decision (Q x)} (l : list A) :
  (∀ x, x ∈ l → P x ↔ Q x) → filter P l = filter Q l.
Proof.
  induction l as [|x l IH]; intros HPQ; [done|].
  rewrite !filter_cons.
  assert (filter P l = filter Q l) as -> by (apply IH; intros; apply HPQ; by right).
  destruct (decide (P x)) as [HP|HP], (decide (Q x)) as [HQ|HQ]; try done;
    exfalso; apply (HPQ x ltac:(left)) in HP || apply (HPQ x ltac:(left)) in HQ; done.
Qed.

Lemma drop_columns_to_drop df suffix :
  drop_columns df (filter (λ column, endswith column suffix = true) (columns df))
  = filter (λ c, endswith c.1 suffix = false) df.
Proof.
  unfold drop_columns, columns. apply filter_ext_elem. intros c Hc.
  rewrite list_elem_of_filter, <- not_true_iff_false. split.
  - intros Hn He. apply Hn. split; [done|]. by apply list_elem_of_fmap_2.
  - intros Hn [He _]. done.
Qed.
End frame_lemmas.

(** ** The column dropper *)

Section filterR_lemmas.
Import FilterR.
Variable root : Path.
Implicit Types (fs : gmap Path DataFrame) (df : DataFrame).

Lemma source_neq_output : SOURCE_FILE root ≠ OUTPUT_FILE root.
Proof.
  unfold SOURCE_FILE, OUTPUT_FILE, path_div. intros Heq.
  apply app_inv_head in Heq. discriminate.
Qed.

(** The loop after [k] blocks: the output holds the first [k] blocks of
    the kept columns, and the remaining blocks extend it one by one. *)
Lemma write_chunks_rest labels c df fs m k :
  fs !! OUTPUT_FILE root = Some (truncated (k * c) (drop_columns df labels)) →
  write_chunks root labels (map (chunk_at c df) (seq k m)) false fs
  = Some (<[OUTPUT_FILE root := truncated ((k + m) * c) (drop_columns df labels)]> fs).
Proof.
  revert fs k. induction m as [|m IH]; intros fs k Hout.
  - cbn. rewrite Nat.add_0_r. by rewrite insert_id.
  - cbn [seq map write_chunks]. unfold to_csv_append.
    rewrite Hout. cbn [mbind option_bind].
    rewrite drop_columns_chunk_at, append_rows_chunk. cbn [mbind option_bind].
    rewrite IH by apply lookup_insert_eq.
    rewrite insert_insert_eq. do 3 f_equal. lia.
Qed.

Lemma write_chunks_all labels c df fs :
  0 < c →
  write_chunks root labels (read_csv_chunks df c) true fs
  = Some (<[OUTPUT_FILE root :=
             truncated (chunk_count (nrows df) c * c) (drop_columns df labels)]> fs).
Proof.
  intros Hc. unfold read_csv_chunks.
  pose proof (chunk_count_pos (nrows df) c Hc) as Hpos.
  destruct (chunk_count (nrows df) c) as [|m]; [lia|].
  cbn [seq map write_chunks]. cbn [mbind option_bind]. unfold to_csv_write.
  rewrite (write_chunks_rest labels c df _ m 1).
  - by rewrite insert_insert_eq.
  - rewrite lookup_insert_eq, drop_columns_chunk_at. f_equal.
    unfold chunk_at, truncated. apply map_ext. intros [name cells]. simpl.
    by rewrite Nat.add_0_r.
Qed.

Lemma CHUNK_SIZE_pos : 0 < CHUNK_SIZE.
Proof. unfold CHUNK_SIZE. lia. Qed.

Lemma write_filtered_csv_aligned labels df fs :
  fs !! SOURCE_FILE root = Some df → aligned df →
  _write_filtered_csv root labels fs
  = Some (<[OUTPUT_FILE root := drop_columns df labels]> fs).
Proof.
  intros Hsrc Hal. unfold _write_filtered_csv. rewrite Hsrc. cbn [mbind option_bind].
  rewrite write_chunks_all by apply CHUNK_SIZE_pos.
  rewrite (truncated_all (nrows df)); [done| |].
  - intros c Hc. unfold drop_columns in Hc. by rewrite (aligned_filter _ df c Hal Hc).
  - apply chunk_count_covers, CHUNK_SIZE_pos.
Qed.

Lemma write_filtered_csv_total labels df fs :
  fs !! SOURCE_FILE root = Some df → is_Some (_write_filtered_csv root labels fs).
Proof.
  intros Hsrc. unfold _write_filtered_csv. rewrite Hsrc. cbn [mbind option_bind].
  rewrite write_chunks_all by apply CHUNK_SIZE_pos. done.
Qed.

Lemma first_chunk_columns df c :
  0 < c → ∃ chunk, head (read_csv_chunks df c) = Some chunk ∧ columns chunk = columns df.
Proof.
  intros Hc. unfold read_csv_chunks.
  pose proof (chunk_count_pos (nrows df) c Hc) as Hpos.
  destruct (chunk_count (nrows df) c) as [|m]; [lia|].
  eexists. split; [done|]. unfold columns, chunk_at.
  rewrite map_map. by apply map_ext.
Qed.

Lemma columns_to_drop_nil (cols : list string) suffix :
  _columns_to_drop cols suffix = [] ↔ ∀ c, c ∈ cols → endswith c suffix = false.
Proof.
  unfold _columns_to_drop. induction cols as [|col cols IH]; [set_solver|].
  rewrite filter_cons. destruct (decide (endswith col suffix = true)) as [E|E].
  - split; [done|]. intros Hall. rewrite Hall in E by left. done.
  - rewrite IH. apply not_true_iff_false in E. split.
    + intros Hall c [->|Hc]%elem_of_cons; auto.
    + intros Hall c Hc. apply Hall. by right.
Qed.

Lemma columns_filtered df suffix :
  columns (filter (λ c, endswith c.1 suffix = false) df)
  = filter (λ name, endswith name suffix = false) (columns df).
Proof.
  unfold columns. induction df as [|col df IH]; [done|].
  cbn [map]. rewrite !filter_cons.
  destruct (decide (endswith col.1 suffix = false)); cbn [map]; by rewrite IH.
Qed.


(** What [main] does once the source file is known to exist. *)
Lemma main_present fs df :
  fs !! SOURCE_FILE root = Some df → aligned df →
  main root fs =
    let out1 := "Loading column headers from " +:+ path_name (SOURCE_FILE root) +:+ "..." in
    let columns_to_drop := _columns_to_drop (columns df) "R" in
    if decide (columns_to_drop = []) then
      Some (Outcome 0 fs [out1; "No columns ending with 'R' found; nothing to filter."] [])
    else
      Some (Outcome 0
              (<[OUTPUT_FILE root := filter (λ c, endswith c.1 "R" = false) df]> fs)
              [out1;
               "Dropping columns (sample): " +:+ join ", " (take 5 columns_to_drop)
               +:+ (if decide (5 < length columns_to_drop) then "..." else "");
               "Filtered dataset written to " +:+ path_name (OUTPUT_FILE root) +:+ " with "
               +:+ str_nat (length columns_to_drop) +:+ " columns removed."] []).
Proof.
  intros Hsrc Hal. unfold main. rewrite Hsrc.
  destruct (first_chunk_columns df CHUNK_SIZE CHUNK_SIZE_pos) as (chunk & -> & Hcols).
  cbn [mbind option_bind]. cbv zeta. rewrite Hcols.
  destruct (decide (_columns_to_drop (columns df) "R" = [])); [done|].
  rewrite (write_filtered_csv_aligned _ df fs Hsrc Hal). cbn [mbind option_bind].
  unfold _columns_to_drop at 1. by rewrite drop_columns_to_drop.
Qed.


End filterR_lemmas.

Section filterR_claims.
Import FilterR.
Implicit Types (fs : gmap Path DataFrame) (df : DataFrame).


(** C9. Empty drop set: when no column name of the source ends with [R]
    the run writes nothing (the file store, the output location
    included, is left as it was), tells the caller that there was
    nothing to filter and ends with status 0. *)
Theorem column_dropper_nothing_to_drop root fs df :
  fs !! SOURCE_FILE root = Some df →
  (∀ name, name ∈ columns df → endswith name "R" = false) →
  main root fs
  = Some (Outcome 0 fs
            ["Loading column headers from " +:+ path_name (SOURCE_FILE root) +:+ "...";
             "No columns ending with 'R' found; nothing to filter."] []).
Proof.
  intros Hsrc Hnone. unfold main. rewrite Hsrc.
  destruct (first_chunk_columns df CHUNK_SIZE (CHUNK_SIZE_pos)) as (chunk & -> & Hcols).
  cbn [mbind option_bind]. cbv zeta. rewrite Hcols.
  by rewrite decide_True by (by apply columns_to_drop_nil).
Qed.

End filterR_claims.

Lemma survey_source :
  Samples.survey_store !! FilterR.SOURCE_FILE Samples.root = Some Samples.survey.
Proof. apply lookup_singleton_eq. Qed.



Lemma column_dropper_nothing_to_drop_witness :
  Samples.plain_store !! FilterR.SOURCE_FILE Samples.root = Some Samples.plain
  ∧ (∀ name, name ∈ columns Samples.plain → endswith name "R" = false)
  ∧ FilterR.main Samples.root Samples.plain_store
    = Some (Outcome 0 Samples.plain_store
              ["Loading column headers from Q1_Q260_filtered_30%row_and_column.csv...";
               "No columns ending with 'R' found; nothing to filter."] []).
Proof.
  assert (Samples.plain_store !! FilterR.SOURCE_FILE Samples.root = Some Samples.plain)
    as Hsrc by apply lookup_singleton_eq.
  assert (∀ name, name ∈ columns Samples.plain → endswith name "R" = false) as Hnone.
  { apply (proj1 (Forall_forall (λ name, endswith name "R" = false)
                          (columns Samples.plain))).
    repeat constructor. }
  split; [exact Hsrc|]. split; [exact Hnone|].
  exact (column_dropper_nothing_to_drop Samples.root Samples.plain_store
           Samples.plain Hsrc Hnone).
Defined.

(** ** The feature subsetter *)

Ltac to_fmap :=
  repeat match goal with
         | |- context [map ?f ?l] => change (map f l) with (f <$> l)
         | H : context [map ?f ?l] |- _ => change (map f l) with (f <$> l) in H
         end.

Section table_lemmas.
Implicit Types (table df : DataFrame) (s : string) (cells : list pyval).

Lemma filter_by_name_absent table s :
  s ∉ columns table → filter (λ c, c.1 = s) table = [].
Proof.
  unfold columns. induction table as [|[n cs] rest IH]; [done|].
  cbn [map fst]. intros Hn. apply not_elem_of_cons in Hn as [Hne Hn].
  rewrite filter_cons, decide_False by (simpl; congruence). by apply IH.
Qed.

Lemma filter_by_name table s cells :
  NoDup (columns table) → (s, cells) ∈ table →
  filter (λ c, c.1 = s) table = [(s, cells)].
Proof.
  unfold columns. induction table as [|[n cs] rest IH]; intros Hnd Hin.
  - by apply elem_of_nil in Hin.
  - cbn [map fst] in Hnd. apply NoDup_cons in Hnd as [Hn Hnd].
    apply elem_of_cons in Hin as [Heq|Hin].
    + injection Heq as <- <-. rewrite filter_cons, decide_True by done.
      by rewrite filter_by_name_absent.
    + assert (n ≠ s) as Hne.
      { intros ->. apply Hn. to_fmap. by apply (list_elem_of_fmap_2 fst) in Hin. }
      rewrite filter_cons, decide_False by done. by apply IH.
Qed.

Lemma getitem_column_elem table s cells :
  NoDup (columns table) → (s, cells) ∈ table → getitem_column table s = Ok cells.
Proof.
  unfold columns. induction table as [|[n cs] rest IH]; intros Hnd Hin.
  - by apply elem_of_nil in Hin.
  - cbn [map fst] in Hnd. apply NoDup_cons in Hnd as [Hn Hnd].
    cbn [getitem_column]. apply elem_of_cons in Hin as [Heq|Hin].
    + injection Heq as <- <-. by rewrite decide_True.
    + rewrite decide_False; [by apply IH|].
      intros ->. apply Hn. to_fmap. by apply (list_elem_of_fmap_2 fst) in Hin.
Qed.

Lemma cells_of_elem table s cells :
  NoDup (columns table) → (s, cells) ∈ table → cells_of table s = cells.
Proof. intros. unfold cells_of. by erewrite getitem_column_elem. Qed.

Lemma column_has_cells table s :
  s ∈ columns table → ∃ cells, (s, cells) ∈ table.
Proof.
  unfold columns. to_fmap. intros ([n cs] & -> & Hin)%list_elem_of_fmap. by exists cs.
Qed.

Lemma filter_map_comm {A B} (P : B → Prop) `{∀ x, Decision (P x)} (f : A → B) (l : list A) :
  filter P (map f l) = map f (filter (λ x, P (f x)) l).
Proof.
  induction l as [|x l IH]; [done|].
  cbn [map]. rewrite !filter_cons. destruct (decide (P (f x))); cbn [map]; by rewrite IH.
Qed.

Lemma filter_none {A} (P : A → Prop) `{∀ x, Decision (P x)} (l : list A) :
  (∀ x, x ∈ l → ¬ P x) → filter P l = [].
Proof.
  induction l as [|x l IH]; intros Hno; [done|].
  rewrite filter_cons, decide_False by (apply Hno; left).
  apply IH. intros y Hy. apply Hno. by right.
Qed.

Lemma foldl_insert_absent (pairs : list (string * string)) (m : gmap string string) s :
  s ∉ map fst pairs →
  foldl (λ m p, <[p.1 := p.2]> m) m pairs !! s = m !! s.
Proof.
  revert m. induction pairs as [|[a b] rest IH]; intros m Hn; [done|].
  cbn [map fst] in Hn. apply not_elem_of_cons in Hn as [Hne Hn].
  cbn [foldl]. rewrite IH by done. simpl. by rewrite lookup_insert_ne.
Qed.

Lemma foldl_insert_present (pairs : list (string * string)) (m : gmap string string) s r :
  NoDup (map fst pairs) → (s, r) ∈ pairs →
  foldl (λ m p, <[p.1 := p.2]> m) m pairs !! s = Some r.
Proof.
  revert m. induction pairs as [|[a b] rest IH]; intros m Hnd Hin.
  - by apply elem_of_nil in Hin.
  - cbn [map fst] in Hnd. apply NoDup_cons in Hnd as [Hn Hnd].
    cbn [foldl]. apply elem_of_cons in Hin as [Heq|Hin].
    + injection Heq as <- <-. rewrite foldl_insert_absent by done.
      simpl. apply lookup_insert_eq.
    + by apply IH.
Qed.

Lemma pair_fst_functional (pairs : list (string * string)) a b b' :
  NoDup (map fst pairs) → (a, b) ∈ pairs → (a, b') ∈ pairs → b = b'.
Proof.
  induction pairs as [|[x y] rest IH]; intros Hnd H1 H2.
  - by apply elem_of_nil in H1.
  - cbn [map fst] in Hnd. apply NoDup_cons in Hnd as [Hn Hnd].
    assert (∀ z, (x, z) ∈ rest → False) as Hno.
    { intros z Hz. apply Hn. to_fmap. by apply (list_elem_of_fmap_2 fst) in Hz. }
    apply elem_of_cons in H1 as [E1|H1], H2 as [E2|H2]; simplify_eq; eauto.
    all: exfalso; eauto.
Qed.

Lemma pair_snd_functional (pairs : list (string * string)) a a' b :
  NoDup (map snd pairs) → (a, b) ∈ pairs → (a', b) ∈ pairs → a = a'.
Proof.
  induction pairs as [|[x y] rest IH]; intros Hnd H1 H2.
  - by apply elem_of_nil in H1.
  - cbn [map snd] in Hnd. apply NoDup_cons in Hnd as [Hn Hnd].
    assert (∀ z, (z, y) ∈ rest → False) as Hno.
    { intros z Hz. apply Hn. to_fmap. by apply (list_elem_of_fmap_2 snd) in Hz. }
    apply elem_of_cons in H1 as [E1|H1], H2 as [E2|H2]; simplify_eq; eauto.
    all: exfalso; eauto.
Qed.
End table_lemmas.

Section filterVAR_lemmas.
Import FilterVAR.
Variable root : Path.
Variable groups : list (string * list (string * string)).
Implicit Types (fs : gmap Path DataFrame) (table : DataFrame).

Lemma default_neq_fallback : DEFAULT_SOURCE root ≠ FALLBACK_SOURCE root.
Proof.
  unfold DEFAULT_SOURCE, FALLBACK_SOURCE, path_div. intros Heq.
  apply app_inv_head in Heq. discriminate.
Qed.

Lemma select_source_present fs src :
  _select_source_file root fs = Ok src → is_Some (fs !! src).
Proof.
  unfold _select_source_file. repeat case_decide; intros; simplify_eq; done.
Qed.

Lemma select_source_insert fs src table :
  _select_source_file root fs = Ok src →
  _select_source_file root (<[src := table]> fs) = Ok src.
Proof.
  unfold _select_source_file.
  destruct (decide (is_Some (fs !! DEFAULT_SOURCE root))) as [Hd|Hd].
  - intros [= <-]. rewrite lookup_insert_eq. by rewrite decide_True.
  - destruct (decide (is_Some (fs !! FALLBACK_SOURCE root))) as [Hf|Hf]; [|done].
    intros [= <-]. rewrite lookup_insert_ne by (symmetry; apply default_neq_fallback).
    rewrite decide_False by done. rewrite lookup_insert_eq. by rewrite decide_True.
Qed.

Lemma validate_columns_ok (expected available : list string) :
  (∀ id, id ∈ expected → id ∈ available) →
  _validate_columns expected available = Ok ().
Proof.
  intros Hall. unfold _validate_columns. cbv zeta.
  rewrite decide_False; [done|]. intros Hne. apply Hne. set_solver.
Qed.

(** The message of the validation error lists, sorted and without
    repetition, exactly the expected ids that are not available. *)
Lemma validate_columns_missing (expected available : list string) id0 :
  id0 ∈ expected → id0 ∉ available →
  ∃ listed,
    _validate_columns expected available
    = Raise (KeyError
               ("Missing columns in source CSV. Update the predictor lists or " +:+
                "regenerate the input. Missing: " +:+ join ", " listed))
    ∧ (∀ id, id ∈ listed ↔ id ∈ expected ∧ id ∉ available)
    ∧ NoDup listed
    ∧ Sorted String.le listed.
Proof.
  intros Hin Hout. unfold _validate_columns. cbv zeta.
  set (missing := (list_to_set expected ∖ list_to_set available : gset string)).
  rewrite decide_True by (intros He; assert (id0 ∈ missing) by set_solver; set_solver).
  eexists. split; [reflexivity|]. split; [|split].
  - intros id. rewrite merge_sort_Permutation, elem_of_elements. set_solver.
  - rewrite merge_sort_Permutation. apply NoDup_elements.
  - apply Sorted_merge_sort. apply _.
Qed.

Let pairs := all_pairs groups.
Let rename_map : gmap string string :=
  foldl (λ m p, <[p.1 := p.2]> m) {[TARGET_COLUMN := TARGET_RENAMED]} (_column_pairs groups).

Lemma rename_map_lookup s r :
  one_to_one pairs → (s, r) ∈ pairs → rename_map !! s = Some r.
Proof.
  intros [Hnd _] Hin. unfold pairs, all_pairs in *. cbn [map fst] in Hnd.
  apply NoDup_cons in Hnd as [Hn Hnd]. unfold rename_map.
  apply elem_of_cons in Hin as [Heq|Hin].
  - injection Heq as -> ->. rewrite foldl_insert_absent by done.
    apply lookup_singleton_eq.
  - by apply foldl_insert_present.
Qed.

(** Selecting an output name in the renamed frame yields the cells of
    the one source column it stands for. *)
Lemma renamed_column table s r cells :
  one_to_one pairs → NoDup (columns table) →
  (s, r) ∈ pairs → (s, cells) ∈ table →
  filter (λ c, c.1 = r)
    (rename (filter (λ c, c.1 ∈ map fst pairs) table) rename_map)
  = [(r, cells)].
Proof.
  intros Hoto Hnd Hp Hc. unfold rename.
  rewrite filter_map_comm. cbn [fst].
  rewrite (filter_ext_elem _ (λ c, c.1 = s)).
  - rewrite (filter_by_name _ s cells).
    + cbn [map fst snd]. by rewrite (rename_map_lookup s r).
    + unfold columns in *. to_fmap. apply (sublist_NoDup _ _ Hnd).
      apply fmap_sublist, sublist_filter.
    + apply list_elem_of_filter. split; [|done]. cbn [fst].
      to_fmap. by apply (list_elem_of_fmap_2 fst) in Hp.
  - intros [n cs] [Hkeep Hin]%list_elem_of_filter. cbn [fst] in *.
    to_fmap. apply list_elem_of_fmap in Hkeep as ([n' r'] & -> & Hp').
    cbn [fst]. rewrite (rename_map_lookup n' r') by done. cbn [default].
    destruct Hoto as [Hnd1 Hnd2]. split; intros Heq.
    + cbn in Heq. subst r'. by eapply pair_snd_functional.
    + subst n'. cbn. by eapply pair_fst_functional.
Qed.

Lemma getitem_renamed table (ps : list (string * string)) :
  one_to_one pairs → NoDup (columns table) →
  (∀ id, id ∈ map fst pairs → id ∈ columns table) →
  ps ⊆ pairs →
  flat_map (λ label, filter (λ c, c.1 = label)
              (rename (filter (λ c, c.1 ∈ map fst pairs) table) rename_map))
    (map snd ps)
  = map (λ p, (p.2, cells_of table p.1)) ps.
Proof.
  intros Hoto Hnd Hall. induction ps as [|[s r] ps IH]; intros Hsub; [done|].
  cbn [map flat_map fst snd].
  assert ((s, r) ∈ pairs) as Hp by (apply Hsub; left).
  destruct (column_has_cells table s) as [cells Hc].
  { apply Hall. to_fmap. by apply (list_elem_of_fmap_2 fst) in Hp. }
  rewrite (renamed_column table s r cells), (cells_of_elem table s cells) by done.
  rewrite IH; [done|]. intros p Hin. apply Hsub. by right.
Qed.

Lemma build_dataset_ok fs src table :
  _select_source_file root fs = Ok src →
  fs !! src = Some table →
  _column_pairs groups ≠ [] →
  one_to_one pairs →
  NoDup (columns table) →
  (∀ id, id ∈ map fst pairs → id ∈ columns table) →
  build_dataset root groups fs = Ok (map (λ p, (p.2, cells_of table p.1)) pairs).
Proof.
  intros Hsel Hsrc Hne Hoto Hnd Hall. unfold build_dataset.
  rewrite Hsel. cbn [rbind]. cbv zeta.
  rewrite decide_False.
  2:{ cbn [length]. destruct (_column_pairs groups); [done|]. cbn. lia. }
  unfold read_csv_usecols. rewrite Hsrc. cbn [rbind].
  change (TARGET_COLUMN :: map fst (_column_pairs groups)) with (map fst pairs).
  rewrite validate_columns_ok.
  2:{ intros id Hid. unfold columns. to_fmap.
      destruct (column_has_cells table id (Hall id Hid)) as [cells Hc].
      apply (list_elem_of_fmap_2' fst _ (id, cells)); [|done].
      apply list_elem_of_filter. split; [|done]. exact Hid. }
  cbn [rbind]. unfold getitem_columns. cbv zeta.
  change (_ordered_columns groups) with (map snd pairs).
  fold rename_map.
  rewrite decide_True.
  - f_equal. by apply getitem_renamed.
  - apply filter_none. intros r Hr Hnot. apply Hnot. clear Hnot.
    to_fmap. apply list_elem_of_fmap in Hr as ([s r'] & -> & Hp). cbn [snd].
    destruct (column_has_cells table s) as [cells Hc].
    { apply Hall. to_fmap. by apply (list_elem_of_fmap_2 fst) in Hp. }
    pose proof (renamed_column table s r' cells Hoto Hnd Hp Hc) as Hsel'.
    unfold columns. to_fmap. apply (list_elem_of_fmap_2' fst _ (r', cells)); [|done].
    eapply (proj1 (list_elem_of_filter _ _ _)). to_fmap. rewrite Hsel'. by left.
Qed.
End filterVAR_lemmas.

Section filterVAR_claims.
Import FilterVAR.
Implicit Types (fs : gmap Path DataFrame) (table : DataFrame).

Lemma output_file_name root : path_name (OUTPUT_FILE root) = "lifesat_sdt_subset.csv".
Proof. unfold path_name, OUTPUT_FILE, path_div. apply List.last_last. Qed.

Lemma cells_of_Permutation table table' s :
  NoDup (columns table) → table' ≡ₚ table → s ∈ columns table →
  cells_of table' s = cells_of table s.
Proof.
  intros Hnd Hperm Hs. destruct (column_has_cells table s Hs) as [cells Hc].
  rewrite (cells_of_elem table s cells), (cells_of_elem table' s cells); try done.
  - unfold columns in *. to_fmap. by rewrite Hperm.
  - by rewrite Hperm.
Qed.

(** C2. Feature subsetter correctness: on a source holding every
    required column the run succeeds; the columns of the output are
    [LifeSat] followed by the renamed predictors in declaration order,
    whatever the order of the columns in the file; the output has the
    rows of the input; and each output column holds the cells of the
    source column it is the new name of. *)
Theorem feature_subsetter_correct root groups fs src table :
  _select_source_file root fs = Ok src →
  fs !! src = Some table →
  _column_pairs groups ≠ [] →
  one_to_one (all_pairs groups) →
  NoDup (columns table) →
  aligned table →
  (∀ id, id ∈ TARGET_COLUMN :: map fst (_column_pairs groups) → id ∈ columns table) →
  ∃ out,
    main root groups fs
    = Outcome 0 (<[OUTPUT_FILE root := out]> fs)
        ["Saved SDT subset with " +:+ str_nat (nrows table)
         +:+ " rows to lifesat_sdt_subset.csv."] []
    ∧ columns out = "LifeSat" :: map snd (_column_pairs groups)
    ∧ nrows out = nrows table
    ∧ aligned out
    ∧ Forall2 (λ p c, c.1 = p.2 ∧ (p.1, c.2) ∈ table) (all_pairs groups) out
    ∧ (∀ table', table' ≡ₚ table →
         build_dataset root groups (<[src := table']> fs) = Ok out).
Proof.
  intros Hsel Hsrc Hne Hoto Hnd Hal Hall.
  set (out := map (λ p, (p.2, cells_of table p.1)) (all_pairs groups)).
  assert (∀ p, p ∈ all_pairs groups → (p.1, cells_of table p.1) ∈ table) as Hcells.
  { intros [s r] Hp. cbn [fst].
    destruct (column_has_cells table s) as [cells Hc].
    { apply Hall. change (s ∈ map fst (all_pairs groups)).
      to_fmap. by apply (list_elem_of_fmap_2 fst) in Hp. }
    by rewrite (cells_of_elem table s cells). }
  assert (∀ c, c ∈ out → length c.2 = nrows table) as Hlen.
  { intros c Hc. unfold out in Hc. to_fmap.
    apply list_elem_of_fmap in Hc as (p & -> & Hp). cbn [snd].
    unfold aligned in Hal. rewrite Forall_forall in Hal.
    apply (Hal _ (Hcells p Hp)). }
  assert (nrows out = nrows table) as Hrows.
  { apply (Hlen (TARGET_RENAMED, cells_of table TARGET_COLUMN)). left. }
  exists out. split; [|split; [|split; [|split; [|split]]]].
  - unfold main. rewrite (build_dataset_ok root groups fs src table) by done.
    fold out. by rewrite Hrows, output_file_name.
  - unfold out, columns. rewrite map_map. reflexivity.
  - exact Hrows.
  - apply Forall_forall. intros c Hc. rewrite Hrows. by apply Hlen.
  - unfold out. to_fmap. apply Forall2_fmap_r, Forall_Forall2_diag, Forall_forall.
    intros p Hp. split; [done|]. by apply Hcells.
  - intros table' Hperm.
    rewrite (build_dataset_ok root groups _ src table').
    + f_equal. unfold out. apply map_ext_in. intros p Hp%list_elem_of_In.
      f_equal. apply cells_of_Permutation; [done..|].
      apply Hall. change (p.1 ∈ map fst (all_pairs groups)).
      to_fmap. by apply list_elem_of_fmap_2.
    + by apply select_source_insert.
    + apply lookup_insert_eq.
    + done.
    + done.
    + unfold columns in *. to_fmap. by rewrite Hperm.
    + intros id Hid. unfold columns in *. to_fmap. rewrite Hperm. by apply Hall.
Qed.

Lemma columns_usecols (keep : list string) table id :
  id ∈ keep →
  id ∈ columns (filter (λ c, c.1 ∈ keep) table) ↔ id ∈ columns table.
Proof.
  intros Hk. unfold columns. to_fmap. rewrite !list_elem_of_fmap. split.
  - intros (c & -> & [_ Hc]%list_elem_of_filter). eauto.
  - intros (c & -> & Hc). exists c. split; [done|]. by apply list_elem_of_filter.
Qed.

Lemma join_mentions sep (parts : list string) part :
  part ∈ parts → ∃ before after, join sep parts = before +:+ part +:+ after.
Proof.
  induction parts as [|p rest IH]; intros Hin; [by apply elem_of_nil in Hin|].
  apply elem_of_cons in Hin as [->|Hin].
  - destruct rest as [|q rest'].
    + exists "", "". cbn [join]. change ("" +:+ p +:+ "") with (p +:+ "").
      by rewrite string_app_nil_r.
    + exists "", (sep +:+ join sep (q :: rest')). reflexivity.
  - destruct (IH Hin) as (before & after & Heq).
    destruct rest as [|q rest']; [by apply elem_of_nil in Hin|].
    exists (p +:+ sep +:+ before), after.
    change (join sep (p :: q :: rest')) with (p +:+ sep +:+ join sep (q :: rest')).
    rewrite Heq. by rewrite !string_app_assoc.
Qed.

(** C4. Missing columns: when a required source column is absent from
    the source the run writes no file and ends with status 1, and the
    message on standard error lists, sorted and each once, exactly the
    required ids that the source lacks: all of them, not the first. *)
Theorem missing_columns_reported root groups fs src table id0 :
  _select_source_file root fs = Ok src →
  fs !! src = Some table →
  _column_pairs groups ≠ [] →
  id0 ∈ TARGET_COLUMN :: map fst (_column_pairs groups) →
  id0 ∉ columns table →
  ∃ listed,
    main root groups fs
    = Outcome 1 fs []
        ["Error while constructing SDT feature set: "
         +:+ py_repr ("Missing columns in source CSV. Update the predictor lists or "
                      +:+ "regenerate the input. Missing: " +:+ join ", " listed)]
    ∧ (∀ id, id ∈ listed ↔
             id ∈ TARGET_COLUMN :: map fst (_column_pairs groups) ∧ id ∉ columns table)
    ∧ NoDup listed
    ∧ Sorted String.le listed
    ∧ (∀ id, id ∈ listed →
             ∃ before after, join ", " listed = before +:+ id +:+ after).
Proof.
  intros Hsel Hsrc Hne Hin Hout.
  set (keep := TARGET_COLUMN :: map fst (_column_pairs groups)) in *.
  destruct (validate_columns_missing keep
              (columns (filter (λ c, c.1 ∈ keep) table)) id0)
    as (listed & Hval & Hmem & Hnd & Hsorted); [done| |].
  { by rewrite columns_usecols. }
  exists listed. split; [|split; [|split; [|split]]]; try done.
  - unfold main, build_dataset. rewrite Hsel. cbn [rbind]. cbv zeta.
    rewrite decide_False.
    2:{ cbn [length]. destruct (_column_pairs groups); [done|]. cbn. lia. }
    unfold read_csv_usecols. rewrite Hsrc. cbn [rbind].
    fold keep. rewrite Hval. reflexivity.
  - intros id. rewrite Hmem. split; intros [Hk Hn]; (split; [done|]).
    + by rewrite <- (columns_usecols keep).
    + by rewrite columns_usecols.
  - intros id Hid. by apply join_mentions.
Qed.

(** C8. Degenerate configuration: when the column groups declare no
    predictor the run never succeeds: building the dataset raises, the
    status is 1 and no file is touched; with a source file in place the
    error is the configuration error asking to populate the groups. *)
Theorem empty_configuration_is_error root groups fs :
  _column_pairs groups = [] →
  ∃ e,
    build_dataset root groups fs = Raise e
    ∧ main root groups fs
      = Outcome 1 fs [] ["Error while constructing SDT feature set: " +:+ str_exn e]
    ∧ (is_Some (fs !! DEFAULT_SOURCE root) ∨ is_Some (fs !! FALLBACK_SOURCE root) →
       e = ValueError "Populate COLUMN_GROUPS before running the script.").
Proof.
  intros Hnone. unfold main, build_dataset. rewrite Hnone.
  unfold _select_source_file. cbv zeta. cbn [map length].
  destruct (decide (is_Some (fs !! DEFAULT_SOURCE root))) as [Hd|Hd].
  - cbn [rbind]. rewrite decide_True by done. eauto.
  - destruct (decide (is_Some (fs !! FALLBACK_SOURCE root))) as [Hf|Hf].
    + cbn [rbind]. rewrite decide_True by done. eauto.
    + cbn [rbind]. eexists. split; [reflexivity|]. split; [reflexivity|].
      intros [?|?]; done.
Qed.

End filterVAR_claims.

Lemma declared_groups_one_to_one : one_to_one (all_pairs COLUMN_GROUPS).
Proof. split; apply (bool_decide_unpack _); vm_compute; exact I. Qed.

Lemma wvs_selected :
  FilterVAR._select_source_file Samples.root Samples.wvs_store
  = Ok (FilterVAR.FALLBACK_SOURCE Samples.root).
Proof.
  unfold FilterVAR._select_source_file, Samples.wvs_store.
  rewrite lookup_singleton_ne by (intros Heq; by apply (default_neq_fallback Samples.root)).
  rewrite decide_False by (by intros [? ?]).
  rewrite lookup_singleton_eq. by rewrite decide_True.
Qed.

Lemma wvs_short_selected :
  FilterVAR._select_source_file Samples.root Samples.wvs_short_store
  = Ok (FilterVAR.DEFAULT_SOURCE Samples.root).
Proof.
  unfold FilterVAR._select_source_file, Samples.wvs_short_store.
  rewrite lookup_singleton_eq. by rewrite decide_True.
Qed.

Lemma feature_subsetter_correct_witness :
  FilterVAR._select_source_file Samples.root Samples.wvs_store
    = Ok (FilterVAR.FALLBACK_SOURCE Samples.root)
  ∧ Samples.wvs_store !! FilterVAR.FALLBACK_SOURCE Samples.root = Some Samples.wvs
  ∧ FilterVAR._column_pairs COLUMN_GROUPS ≠ []
  ∧ one_to_one (all_pairs COLUMN_GROUPS)
  ∧ NoDup (columns Samples.wvs)
  ∧ aligned Samples.wvs
  ∧ (∀ id, id ∈ FilterVAR.TARGET_COLUMN :: map fst (FilterVAR._column_pairs COLUMN_GROUPS) →
           id ∈ columns Samples.wvs)
  ∧ ∃ out,
      FilterVAR.main Samples.root COLUMN_GROUPS Samples.wvs_store
      = Outcome 0 (<[FilterVAR.OUTPUT_FILE Samples.root := out]> Samples.wvs_store)
          ["Saved SDT subset with 2 rows to lifesat_sdt_subset.csv."] []
      ∧ columns out = "LifeSat" :: map snd (FilterVAR._column_pairs COLUMN_GROUPS)
      ∧ nrows out = 2.
Proof.
  assert (Samples.wvs_store !! FilterVAR.FALLBACK_SOURCE Samples.root = Some Samples.wvs)
    as Hsrc by apply lookup_singleton_eq.
  assert (FilterVAR._column_pairs COLUMN_GROUPS ≠ []) as Hne by discriminate.
  assert (NoDup (columns Samples.wvs)) as Hnd
    by (apply (bool_decide_unpack _); vm_compute; exact I).
  assert (aligned Samples.wvs) as Hal
    by (apply (bool_decide_unpack _); vm_compute; exact I).
  assert (∀ id, id ∈ FilterVAR.TARGET_COLUMN
                     :: map fst (FilterVAR._column_pairs COLUMN_GROUPS) →
                id ∈ columns Samples.wvs) as Hall
    by (apply Forall_forall; apply (bool_decide_unpack _); vm_compute; exact I).
  split; [exact wvs_selected|]. split; [exact Hsrc|]. split; [exact Hne|].
  split; [exact declared_groups_one_to_one|]. split; [exact Hnd|].
  split; [exact Hal|]. split; [exact Hall|].
  destruct (feature_subsetter_correct Samples.root COLUMN_GROUPS Samples.wvs_store
              (FilterVAR.FALLBACK_SOURCE Samples.root) Samples.wvs
              wvs_selected Hsrc Hne declared_groups_one_to_one Hnd Hal Hall)
    as (out & Hmain & Hcols & Hrows & _).
  exists out. split; [exact Hmain|]. split; [exact Hcols | exact Hrows].
Defined.

Lemma missing_columns_reported_witness :
  FilterVAR._select_source_file Samples.root Samples.wvs_short_store
    = Ok (FilterVAR.DEFAULT_SOURCE Samples.root)
  ∧ Samples.wvs_short_store !! FilterVAR.DEFAULT_SOURCE Samples.root
    = Some Samples.wvs_short
  ∧ FilterVAR._column_pairs COLUMN_GROUPS ≠ []
  ∧ "Q59" ∈ FilterVAR.TARGET_COLUMN :: map fst (FilterVAR._column_pairs COLUMN_GROUPS)
  ∧ "Q59" ∉ columns Samples.wvs_short
  ∧ ∃ listed,
      FilterVAR.main Samples.root COLUMN_GROUPS Samples.wvs_short_store
      = Outcome 1 Samples.wvs_short_store []
          ["Error while constructing SDT feature set: "
           +:+ py_repr ("Missing columns in source CSV. Update the predictor lists or "
                        +:+ "regenerate the input. Missing: " +:+ join ", " listed)]
      ∧ "Q59" ∈ listed ∧ "Q253" ∈ listed.
Proof.
  assert (Samples.wvs_short_store !! FilterVAR.DEFAULT_SOURCE Samples.root
          = Some Samples.wvs_short) as Hsrc by apply lookup_singleton_eq.
  assert (FilterVAR._column_pairs COLUMN_GROUPS ≠ []) as Hne by discriminate.
  assert ("Q59" ∈ FilterVAR.TARGET_COLUMN
                  :: map fst (FilterVAR._column_pairs COLUMN_GROUPS)) as Hin
    by (apply (bool_decide_unpack _); vm_compute; exact I).
  assert ("Q59" ∉ columns Samples.wvs_short) as Hout
    by (apply (bool_decide_unpack _); vm_compute; exact I).
  split; [exact wvs_short_selected|]. split; [exact Hsrc|]. split; [exact Hne|].
  split; [exact Hin|]. split; [exact Hout|].
  destruct (missing_columns_reported Samples.root COLUMN_GROUPS Samples.wvs_short_store
              (FilterVAR.DEFAULT_SOURCE Samples.root) Samples.wvs_short "Q59"
              wvs_short_selected Hsrc Hne Hin Hout) as (listed & Hmain & Hmem & _).
  exists listed. split; [exact Hmain|]. split; apply Hmem.
  - split; [exact Hin | exact Hout].
  - split; apply (bool_decide_unpack _); vm_compute; exact I.
Defined.

Lemma empty_configuration_is_error_witness :
  FilterVAR._column_pairs [("com", []); ("aut", []); ("rel", [])] = []
  ∧ FilterVAR.main Samples.root [("com", []); ("aut", []); ("rel", [])] Samples.wvs_store
    = Outcome 1 Samples.wvs_store []
        ["Error while constructing SDT feature set: "
         +:+ "Populate COLUMN_GROUPS before running the script."].
Proof.
  assert (FilterVAR._column_pairs [("com", []); ("aut", []); ("rel", [])] = [])
    as Hnone by reflexivity.
  split; [exact Hnone|].
  destruct (empty_configuration_is_error Samples.root
              [("com", []); ("aut", []); ("rel", [])] Samples.wvs_store Hnone)
    as (e & _ & Hmain & He).
  rewrite Hmain, He; [reflexivity|].
  right. unfold Samples.wvs_store. rewrite lookup_singleton_eq. by eexists.
Defined.

(** ** The transaction flattener *)

Section data_prep_lemmas.
Import DataPrep.
Implicit Types (df : DataFrame) (key : string) (cells : list pyval).

Lemma getitem_setitem_eq df key cells :
  getitem_column (setitem_column df key cells) key = Ok cells.
Proof.
  induction df as [|[name old] rest IH]; cbn [setitem_column getitem_column].
  - by rewrite decide_True.
  - destruct (decide (name = key)) as [->|Hne]; cbn [getitem_column].
    + by rewrite decide_True.
    + by rewrite decide_False.
Qed.

Lemma getitem_setitem_ne df key key' cells :
  key ≠ key' →
  getitem_column (setitem_column df key cells) key' = getitem_column df key'.
Proof.
  intros Hne. induction df as [|[name old] rest IH]; cbn [setitem_column getitem_column].
  - by rewrite decide_False.
  - destruct (decide (name = key)) as [->|Hne']; cbn [getitem_column].
    + by rewrite !decide_False.
    + destruct (decide (name = key')); [done|apply IH].
Qed.

Lemma apply_Forall2 {A B} (f : A → result B) (xs : list A) (ys : list B) :
  apply f xs = Ok ys ↔ Forall2 (λ x y, f x = Ok y) xs ys.
Proof.
  revert ys. induction xs as [|x xs IH]; intros ys; cbn [apply].
  - split; [intros [= <-]; constructor | by inversion 1].
  - split.
    + destruct (f x) as [y|e] eqn:Ex; cbn [rbind]; [|intros; discriminate].
      destruct (apply f xs) as [ys'|e]; cbn [rbind]; [|intros; discriminate].
      intros [= <-]. constructor; [done|]. by apply IH.
    + inversion 1 as [|? y ? ys' Hy Hys]; subst.
      apply IH in Hys. rewrite Hy, Hys. done.
Qed.

(** One failing cell makes the whole [apply] fail. *)
Lemma apply_raises {A B} (f : A → result B) (xs : list A) x e :
  x ∈ xs → f x = Raise e → ∃ e', apply f xs = Raise e'.
Proof.
  intros Hin Hx. destruct (apply f xs) as [ys|e'] eqn:Ea; [|by eauto].
  apply apply_Forall2 in Ea. exfalso.
  induction Ea as [|x' y xs ys Hy Hrest IH]; [by apply elem_of_nil in Hin|].
  apply elem_of_cons in Hin as [->|Hin]; [congruence|by apply IH].
Qed.

Lemma assign_apply_inv dst src f df df' :
  assign_apply dst src f df = Ok df' →
  ∃ cells cells',
    getitem_column df src = Ok cells
    ∧ Forall2 (λ x y, f x = Ok y) cells cells'
    ∧ df' = setitem_column df dst cells'.
Proof.
  unfold assign_apply. destruct (getitem_column df src) as [cells|] eqn:Eg; [|done].
  cbn [rbind]. destruct (apply f cells) as [cells'|] eqn:Ea; [|done].
  cbn [rbind]. intros [= <-]. exists cells, cells'.
  split; [done|]. split; [by apply apply_Forall2|done].
Qed.

Ltac transform_step H :=
  match type of H with
  | rbind (assign_apply ?d ?s ?f ?df) _ = Ok _ =>
      let E := fresh "E" in
      destruct (assign_apply d s f df) as [?|?] eqn:E; [|discriminate H];
      cbn [rbind] in H;
      apply assign_apply_inv in E as (? & ? & ? & ? & ->)
  end.

Lemma transform_columns df df' :
  transform df = Ok df' →
  Forall (λ field, derived df df' field field to_float) coerced_fields
  ∧ Forall (λ '(dst, src, i), derived df df' dst src (split_part i)) compound_fields.
Proof.
  unfold transform. intros H. repeat transform_step H.
  injection H as <-.
  repeat match goal with
         | H : getitem_column (setitem_column _ _ _) _ = _ |- _ =>
             rewrite getitem_setitem_ne in H by done
         end.
  repeat match goal with
         | H : ?a = Ok ?x, H' : ?a = Ok ?y |- _ =>
             assert (y = x) by congruence; subst y; clear H'
         end.
  split; repeat constructor; eexists _, _;
    (split; [eassumption|]); (split; [|eassumption]);
    rewrite ?getitem_setitem_ne by done; apply getitem_setitem_eq.
Qed.

Lemma split_no_sep sep (s : string) :
  contains_char sep s = false → split sep s = [s].
Proof.
  induction s as [|c t IH]; [done|]. cbn [contains_char split].
  intros [Hc Ht]%orb_false_elim. apply bool_decide_eq_false in Hc.
  rewrite decide_False by congruence. by rewrite IH.
Qed.

Lemma split_first sep (a b : string) :
  contains_char sep a = false →
  split sep (a +:+ String sep b) = a :: split sep b.
Proof.
  induction a as [|c t IH]; intros Hno.
  - change ("" +:+ String sep b) with (String sep b). cbn [split].
    by rewrite decide_True.
  - cbn [contains_char] in Hno. apply orb_false_elim in Hno as [Hc Ht].
    apply bool_decide_eq_false in Hc.
    change (String c t +:+ String sep b) with (String c (t +:+ String sep b)).
    cbn [split]. rewrite decide_False by congruence. by rewrite IH.
Qed.

Lemma truthy_nonempty (s : string) : s ≠ "" → truthy (VStr s) = true.
Proof. intros Hne. cbn. by destruct s. Qed.
End data_prep_lemmas.

Section data_prep_claims.
Import DataPrep.
Implicit Types (df : DataFrame) (x : pyval).


Lemma split_part_not_none i x : truthy x = true → split_part i x ≠ Ok VNone.
Proof.
  unfold split_part. intros ->.
  destruct (split_slash x) as [parts|]; cbn [rbind]; [|done].
  destruct (getitem_list parts i) as [part|]; cbn [rbind]; [|done].
  unfold rmap. by destruct (float (VStr part)).
Qed.


(** C5, amended. Compound-field split: a cell [a/b] whose two parts hold
    no slash and are accepted by [float] gives [float(a)] in the first
    derived column and [float(b)] in the second, each parsed on its own; a
    cell that is [None] or the empty string gives [None] in both; a missing
    value held as NaN is truthy and has no [split], so it raises
    [AttributeError]; and in the frame the script produces each derived
    column is its source column split cell by cell. *)
Theorem compound_field_split (a b : string) (fa fb : pyfloat) :
  contains_char "/" a = false →
  contains_char "/" b = false →
  float_of_str a = Ok fa →
  float_of_str b = Ok fb →
  split_part 0 (VStr (a +:+ "/" +:+ b)) = Ok (VFloat fa)
  ∧ split_part 1 (VStr (a +:+ "/" +:+ b)) = Ok (VFloat fb)
  ∧ (∀ i x, x = VNone ∨ x = VStr "" → split_part i x = Ok VNone)
  ∧ (∀ i, split_part i (VFloat FNaN)
          = Raise (AttributeError "'float' object has no attribute 'split'"))
  ∧ (∀ df df' dst src i,
       (dst, src, i) ∈ compound_fields → transform df = Ok df' →
       derived df df' dst src (split_part i)).
Proof.
  intros Ha Hb Hfa Hfb.
  assert (truthy (VStr (a +:+ "/" +:+ b)) = true) as Ht
    by (apply truthy_nonempty; by destruct a).
  assert (split "/" (a +:+ "/" +:+ b) = [a; b]) as Hsplit.
  { change (a +:+ "/" +:+ b) with (a +:+ String "/" b).
    by rewrite split_first, split_no_sep. }
  split; [|split; [|split; [|split]]].
  - unfold split_part. rewrite Ht. cbn [split_slash rbind]. rewrite Hsplit.
    cbn. by rewrite Hfa.
  - unfold split_part. rewrite Ht. cbn [split_slash rbind]. rewrite Hsplit.
    cbn. by rewrite Hfb.
  - by intros i x [-> | ->].
  - done.
  - intros df df' dst src i Hin Htr.
    destruct (transform_columns df df' Htr) as [_ Hco].
    rewrite Forall_forall in Hco. by apply (Hco (dst, src, i)).
Qed.

(** C5 as stated fails for a null source cell: a value missing from a
    record reaches the lambdas as NaN, which is truthy and is not a
    string; the call of [split] raises and the script stops, where the
    claim has both derived columns null. *)
Lemma nan_compound_field_raises :
  truthy (VFloat FNaN) = true
  ∧ split_part 0 (VFloat FNaN)
    = Raise (AttributeError "'float' object has no attribute 'split'")
  ∧ split_part 1 (VFloat FNaN)
    = Raise (AttributeError "'float' object has no attribute 'split'")
  ∧ split_part 0 (VFloat FNaN) ≠ Ok VNone
  ∧ split_part 1 (VFloat FNaN) ≠ Ok VNone
  ∧ transform Samples.transactions_missing
    = Raise (AttributeError "'float' object has no attribute 'split'").
Proof.
  split; [|split; [|split; [|split; [|split]]]]; [reflexivity ..| | |].
  - by apply split_part_not_none.
  - by apply split_part_not_none.
  - vm_compute. reflexivity.
Qed.

(** C3 as stated fails: a compound field that is not two numbers
    around a slash is not turned into [None]; the exception of [float]
    or of the indexing escapes, a third part is ignored, and the script
    stops on such a cell. *)
Lemma malformed_compound_field_raises :
  split_part 0 (VStr "abc")
    = Raise (ValueError "could not convert string to float: 'abc'")
  ∧ split_part 1 (VStr "abc") = Raise (IndexError "list index out of range")
  ∧ split_part 0 (VStr "abc") ≠ Ok VNone
  ∧ split_part 1 (VStr "abc") ≠ Ok VNone
  ∧ split_part 0 (VStr "1/2/3") = Ok (VFloat (FNum 1))
  ∧ split_part 1 (VStr "1/2/3") = Ok (VFloat (FNum 2))
  ∧ transform Samples.transactions_malformed
    = Raise (ValueError "could not convert string to float: 'abc'")
  ∧ script Samples.cwd Samples.transactions_malformed ∅
    = Raise (ValueError "could not convert string to float: 'abc'").
Proof.
  assert (transform Samples.transactions_malformed
          = Raise (ValueError "could not convert string to float: 'abc'")) as Htr
    by (vm_compute; reflexivity).
  split; [|split; [|split; [|split; [|split; [|split; [|split]]]]]].
  - vm_compute; reflexivity.
  - vm_compute; reflexivity.
  - by apply split_part_not_none.
  - by apply split_part_not_none.
  - vm_compute; reflexivity.
  - vm_compute; reflexivity.
  - exact Htr.
  - unfold script. by rewrite Htr.
Qed.

(** C3, amended. A derived value of a compound field is [None] exactly
    when the cell is falsy (null or empty).  A non-empty string is split
    at the slashes and the part asked for goes to [float]: the result is
    that float, the [IndexError] of a missing part or the exception of
    [float]; and when a transformation raises, the script raises the same
    exception and writes nothing. *)
Theorem compound_field_null_iff_falsy (i : nat) x :
  (split_part i x = Ok VNone ↔ truthy x = false)
  ∧ (∀ s, x = VStr s → s ≠ "" →
       split_part i x
       = match split "/" s !! i with
         | Some part => rmap VFloat (float_of_str part)
         | None => Raise (IndexError "list index out of range")
         end)
  ∧ (∀ cwd df fs e, transform df = Raise e → script cwd df fs = Raise e).
Proof.
  split; [split|split].
  - intros Hnone. destruct (truthy x) eqn:Ht; [|done].
    by apply split_part_not_none in Hnone.
  - unfold split_part. by intros ->.
  - intros s -> Hne. unfold split_part. rewrite truthy_nonempty by done.
    cbn [split_slash rbind]. unfold getitem_list.
    by destruct (split "/" s !! i).
  - intros cwd df fs e Htr. unfold script. by rewrite Htr.
Qed.
End data_prep_claims.

Lemma compound_field_split_witness :
  contains_char "/" "12.5" = false
  ∧ contains_char "/" "34.2" = false
  ∧ float_of_str "12.5" = Ok (FNum (25 # 2))
  ∧ float_of_str "34.2" = Ok (FNum (171 # 5))
  ∧ DataPrep.split_part 0 (VStr "12.5/34.2") = Ok (VFloat (FNum (25 # 2)))
  ∧ DataPrep.split_part 1 (VStr "12.5/34.2") = Ok (VFloat (FNum (171 # 5)))
  ∧ ∃ df',
      DataPrep.transform Samples.transactions = Ok df'
      ∧ ("transaction_price_per_sq_ft", "transaction_price_per_sq", 1) ∈ compound_fields
      ∧ derived Samples.transactions df'
          "transaction_price_per_sq_ft" "transaction_price_per_sq" (DataPrep.split_part 1)
      ∧ getitem_column df' "transaction_price_per_sq_ft"
        = Ok [VFloat (FNum (171 # 5)); VNone; VNone].
Proof.
  assert (contains_char "/" "12.5" = false) as Ha by reflexivity.
  assert (contains_char "/" "34.2" = false) as Hb by reflexivity.
  assert (float_of_str "12.5" = Ok (FNum (25 # 2))) as Hfa by (vm_compute; reflexivity).
  assert (float_of_str "34.2" = Ok (FNum (171 # 5))) as Hfb by (vm_compute; reflexivity).
  split; [exact Ha|]. split; [exact Hb|]. split; [exact Hfa|]. split; [exact Hfb|].
  destruct (compound_field_split "12.5" "34.2" _ _ Ha Hb Hfa Hfb)
    as (H0 & H1 & _ & _ & Hscript).
  split; [exact H0|]. split; [exact H1|].
  assert (("transaction_price_per_sq_ft", "transaction_price_per_sq", 1) ∈ compound_fields)
    as Hin by (apply (bool_decide_unpack _); vm_compute; exact I).
  eexists. split; [vm_compute; reflexivity|]. split; [exact Hin|]. split.
  - apply (Hscript Samples.transactions _ _ _ _ Hin). vm_compute. reflexivity.
  - vm_compute. reflexivity.
Defined.

(** ** Further properties of the column dropper *)

Lemma endswith_spec (s suffix : string) :
  endswith s suffix = true ↔ ∃ prefix, s = prefix +:+ suffix.
Proof.
  split.
  - induction s as [|c t IH]; cbn [endswith].
    + rewrite orb_false_r. intros ->%String.eqb_eq. by exists "".
    + intros [->%String.eqb_eq | Ht]%orb_true_iff; [by exists ""|].
      destruct (IH Ht) as [prefix ->]. by exists (String c prefix).
  - intros [prefix ->]. induction prefix as [|c p IH].
    + change ("" +:+ suffix) with suffix.
      destruct suffix; cbn [endswith]; by rewrite String.eqb_refl.
    + change (String c p +:+ suffix) with (String c (p +:+ suffix)).
      cbn [endswith]. rewrite IH. apply orb_true_r.
Qed.

(** X1. The drop set: a name is selected exactly when it is one of the
    columns and is some prefix followed by the suffix; the selection keeps
    the order of the columns. *)
Theorem columns_to_drop_spec (cols : list string) (suffix name : string) :
  (name ∈ FilterR._columns_to_drop cols suffix
   ↔ name ∈ cols ∧ ∃ prefix, name = prefix +:+ suffix)
  ∧ FilterR._columns_to_drop cols suffix `sublist_of` cols.
Proof.
  unfold FilterR._columns_to_drop. split.
  - rewrite list_elem_of_filter, endswith_spec. tauto.
  - apply sublist_filter.
Qed.

(** X2. Empty suffix: every name ends with the empty string, so every
    column is selected and the filtered frame has no column left. *)
Theorem columns_to_drop_empty_suffix (df : DataFrame) :
  FilterR._columns_to_drop (columns df) "" = columns df
  ∧ drop_columns df (FilterR._columns_to_drop (columns df) "") = [].
Proof.
  assert (FilterR._columns_to_drop (columns df) "" = columns df) as Hall.
  { unfold FilterR._columns_to_drop. induction (columns df) as [|c cols IH]; [done|].
    rewrite filter_cons, decide_True, IH; [done|].
    apply endswith_spec. exists c. by rewrite string_app_nil_r. }
  split; [exact Hall|]. rewrite Hall. unfold drop_columns.
  apply filter_none. intros c Hc Hn. apply Hn.
  unfold columns. to_fmap. by apply list_elem_of_fmap_2.
Qed.

Lemma filter_length_complement {A} (P : A → Prop) `{∀ x, Decision (P x)} (l : list A) :
  length (filter P l) + length (filter (λ x, ¬ P x) l) = length l.
Proof.
  induction l as [|x l IH]; [done|].
  rewrite !filter_cons. destruct (decide (P x)).
  - rewrite decide_False by tauto. cbn [length]. lia.
  - rewrite decide_True by done. cbn [length]. lia.
Qed.

(** X3. Dropped and kept columns partition the header: the number of
    columns in the output is the number in the source less the number
    reported as removed, and no kept column is in the drop set. *)
Theorem dropped_and_kept_partition (df : DataFrame) (suffix : string) :
  let dropped := FilterR._columns_to_drop (columns df) suffix in
  let kept := drop_columns df dropped in
  length (columns kept) + length dropped = length (columns df)
  ∧ (∀ name, name ∈ columns kept → name ∉ dropped)
  ∧ (∀ name, name ∈ columns df → name ∈ dropped ∨ name ∈ columns kept).
Proof.
  intros dropped kept. unfold kept, dropped, FilterR._columns_to_drop.
  rewrite drop_columns_to_drop, columns_filtered. split; [|split].
  - rewrite <- (filter_length_complement (λ name, endswith name suffix = true) (columns df)).
    rewrite Nat.add_comm. do 2 f_equal. apply list_filter_iff.
    intros name. by rewrite not_true_iff_false.
  - intros name [Hk _]%list_elem_of_filter [Hd _]%list_elem_of_filter. congruence.
  - intros name Hin. rewrite !list_elem_of_filter.
    destruct (endswith name suffix); auto.
Qed.

Lemma source_file_name (root : Path) :
  path_name (FilterR.SOURCE_FILE root) = "Q1_Q260_filtered_30%row_and_column.csv".
Proof. unfold path_name, FilterR.SOURCE_FILE, path_div. apply List.last_last. Qed.

Lemma dropper_output_file_name (root : Path) :
  path_name (FilterR.OUTPUT_FILE root) = "Q1_Q260_filtered_30%row_and_column_no_R.csv".
Proof. unfold path_name, FilterR.OUTPUT_FILE, path_div. apply List.last_last. Qed.

(** X5. The run leaves the source alone: whatever a run does, every file
    other than the output file, the source file among them, is after the
    run what it was before (the module's docstring: a copy is written
    without modifying the original dataset). *)
Theorem main_touches_only_output (root : Path) (fs : gmap Path DataFrame) (o : outcome) :
  FilterR.main root fs = Some o →
  (∀ p, p ≠ FilterR.OUTPUT_FILE root → files o !! p = fs !! p)
  ∧ files o !! FilterR.SOURCE_FILE root = fs !! FilterR.SOURCE_FILE root.
Proof.
  intros Hrun.
  assert (∀ p, p ≠ FilterR.OUTPUT_FILE root → files o !! p = fs !! p) as Hframe.
  { intros p Hp. unfold FilterR.main in Hrun.
    destruct (fs !! FilterR.SOURCE_FILE root) as [df|] eqn:Hsrc.
    - destruct (first_chunk_columns df FilterR.CHUNK_SIZE CHUNK_SIZE_pos)
        as (chunk & Hhead & _).
      rewrite Hhead in Hrun. cbn [mbind option_bind] in Hrun. cbv zeta in Hrun.
      destruct (decide (FilterR._columns_to_drop (columns chunk) "R" = [])).
      + by injection Hrun as <-.
      + unfold FilterR._write_filtered_csv in Hrun. rewrite Hsrc in Hrun.
        cbn [mbind option_bind] in Hrun.
        rewrite write_chunks_all in Hrun by apply CHUNK_SIZE_pos.
        cbn [mbind option_bind] in Hrun. injection Hrun as <-.
        cbn [files]. by rewrite lookup_insert_ne.
    - by injection Hrun as <-. }
  split; [exact Hframe|]. apply Hframe, source_neq_output.
Qed.

Lemma main_touches_only_output_witness :
  FilterR.main Samples.root Samples.plain_store
    = Some (Outcome 0 Samples.plain_store
              ["Loading column headers from Q1_Q260_filtered_30%row_and_column.csv...";
               "No columns ending with 'R' found; nothing to filter."] [])
  ∧ Samples.plain_store !! FilterR.SOURCE_FILE Samples.root = Some Samples.plain.
Proof.
  assert (Samples.plain_store !! FilterR.SOURCE_FILE Samples.root = Some Samples.plain)
    as Hsrc by apply lookup_singleton_eq.
  assert (FilterR.main Samples.root Samples.plain_store
          = Some (Outcome 0 Samples.plain_store
                    ["Loading column headers from Q1_Q260_filtered_30%row_and_column.csv...";
                     "No columns ending with 'R' found; nothing to filter."] [])) as Hrun.
  { rewrite (main_present Samples.root Samples.plain_store Samples.plain Hsrc);
      [|repeat constructor].
    cbv zeta. rewrite source_file_name. by rewrite decide_True by reflexivity. }
  split; [exact Hrun|].
  rewrite <- (proj2 (main_touches_only_output Samples.root Samples.plain_store _ Hrun)).
  exact Hsrc.
Defined.

(** X7. Tolerant removal: labels that name no column of the source are
    ignored, so adding them to the drop set changes nothing in what is
    written. *)
Theorem absent_labels_ignored (root : Path) (labels extra : list string)
    (fs : gmap Path DataFrame) (df : DataFrame) :
  fs !! FilterR.SOURCE_FILE root = Some df →
  (∀ label, label ∈ extra → label ∉ columns df) →
  drop_columns df (labels ++ extra) = drop_columns df labels
  ∧ FilterR._write_filtered_csv root (labels ++ extra) fs
    = FilterR._write_filtered_csv root labels fs.
Proof.
  intros Hsrc Habsent.
  assert (drop_columns df (labels ++ extra) = drop_columns df labels) as Hdrop.
  { unfold drop_columns. apply filter_ext_elem. intros col Hcol.
    rewrite elem_of_app. split; [tauto|]. intros Hn [Hl|He]; [done|].
    apply (Habsent _ He). unfold columns. to_fmap. by apply list_elem_of_fmap_2. }
  split; [exact Hdrop|].
  unfold FilterR._write_filtered_csv. rewrite Hsrc. cbn [mbind option_bind].
  rewrite !write_chunks_all by apply CHUNK_SIZE_pos. by rewrite Hdrop.
Qed.

Lemma absent_labels_ignored_witness :
  Samples.survey_store !! FilterR.SOURCE_FILE Samples.root = Some Samples.survey
  ∧ (∀ label, label ∈ ["Z_R"; "Q9R"] → label ∉ columns Samples.survey)
  ∧ drop_columns Samples.survey (["B_R"; "D_R"] ++ ["Z_R"; "Q9R"])
    = [ ("A", [VInt 1; VInt 2; VInt 3]); ("C", [VStr "x"; VNone; VStr "z"]) ].
Proof.
  assert (∀ label, label ∈ ["Z_R"; "Q9R"] → label ∉ columns Samples.survey) as Habsent.
  { apply Forall_forall. apply (bool_decide_unpack _). vm_compute. exact I. }
  split; [exact survey_source|]. split; [exact Habsent|].
  rewrite (proj1 (absent_labels_ignored Samples.root ["B_R"; "D_R"] ["Z_R"; "Q9R"]
                    Samples.survey_store Samples.survey survey_source Habsent)).
  reflexivity.
Defined.

(** ** Further properties of the feature subsetter *)

(** X8. Source selection: the pre-filtered file is taken whenever it
    exists, the raw extract only when the pre-filtered file is absent, and
    when neither exists the run fails with status 1, names both files on
    standard error and touches no file. *)
Theorem source_selection_policy (root : Path) (fs : gmap Path DataFrame) :
  (is_Some (fs !! FilterVAR.DEFAULT_SOURCE root) →
   FilterVAR._select_source_file root fs = Ok (FilterVAR.DEFAULT_SOURCE root))
  ∧ (fs !! FilterVAR.DEFAULT_SOURCE root = None →
     is_Some (fs !! FilterVAR.FALLBACK_SOURCE root) →
     FilterVAR._select_source_file root fs = Ok (FilterVAR.FALLBACK_SOURCE root))
  ∧ (fs !! FilterVAR.DEFAULT_SOURCE root = None →
     fs !! FilterVAR.FALLBACK_SOURCE root = None →
     ∀ groups,
       FilterVAR.main root groups fs
       = Outcome 1 fs []
           ["Error while constructing SDT feature set: "
            +:+ "Neither filtered nor raw WVS CSV found. "
            +:+ "Looked for Q1_Q260_filtered_30%row_and_column_no_R.csv"
            +:+ " and Q1_Q260_filtered_30%row_and_column.csv."]).
Proof.
  unfold FilterVAR.main, FilterVAR.build_dataset, FilterVAR._select_source_file.
  split; [|split].
  - intros Hd. by rewrite decide_True.
  - intros Hd Hf. rewrite Hd. rewrite decide_False by (by intros [? ?]).
    by rewrite decide_True.
  - intros Hd Hf groups. rewrite Hd, Hf.
    rewrite !decide_False by (by intros [? ?]). cbn [rbind str_exn].
    unfold path_name, FilterVAR.DEFAULT_SOURCE, FilterVAR.FALLBACK_SOURCE, path_div.
    rewrite !List.last_last. reflexivity.
Qed.

(** X9. The raw extract is not looked at while the pre-filtered file
    exists: creating, replacing or removing the fallback file does not
    change the dataset that is built. *)
Theorem fallback_ignored_when_default_present (root : Path)
    (groups : list (string * list (string * string)))
    (fs : gmap Path DataFrame) (table : DataFrame) :
  is_Some (fs !! FilterVAR.DEFAULT_SOURCE root) →
  FilterVAR.build_dataset root groups (<[FilterVAR.FALLBACK_SOURCE root := table]> fs)
    = FilterVAR.build_dataset root groups fs
  ∧ FilterVAR.build_dataset root groups (delete (FilterVAR.FALLBACK_SOURCE root) fs)
    = FilterVAR.build_dataset root groups fs.
Proof.
  intros Hd.
  pose proof (default_neq_fallback root) as Hne.
  unfold FilterVAR.build_dataset, FilterVAR._select_source_file, read_csv_usecols.
  rewrite lookup_insert_ne, lookup_delete_ne by done.
  rewrite !decide_True by done. cbn [rbind]. cbv zeta.
  rewrite lookup_insert_ne, lookup_delete_ne by done. done.
Qed.

Lemma fallback_ignored_when_default_present_witness :
  is_Some (Samples.wvs_short_store !! FilterVAR.DEFAULT_SOURCE Samples.root)
  ∧ FilterVAR.build_dataset Samples.root COLUMN_GROUPS
      (<[FilterVAR.FALLBACK_SOURCE Samples.root := Samples.wvs]> Samples.wvs_short_store)
    = FilterVAR.build_dataset Samples.root COLUMN_GROUPS Samples.wvs_short_store.
Proof.
  assert (is_Some (Samples.wvs_short_store !! FilterVAR.DEFAULT_SOURCE Samples.root))
    as Hd by (unfold Samples.wvs_short_store; rewrite lookup_singleton_eq; by eexists).
  split; [exact Hd|].
  exact (proj1 (fallback_ignored_when_default_present Samples.root COLUMN_GROUPS
                  Samples.wvs_short_store Samples.wvs Hd)).
Defined.

(** X10. Validation passes exactly when every expected id is among the
    available columns; columns beyond the expected ones and repetitions
    do not matter. *)
Theorem validate_columns_ok_iff (expected available : list string) :
  FilterVAR._validate_columns expected available = Ok ()
  ↔ ∀ id, id ∈ expected → id ∈ available.
Proof.
  split; [|apply validate_columns_ok].
  intros Hok id Hin. destruct (decide (id ∈ available)) as [|Hout]; [done|].
  destruct (validate_columns_missing expected available id Hin Hout)
    as (listed & Hraise & _). congruence.
Qed.

(** X11. The subsetter writes one file at most: whatever the outcome,
    every file other than the output file is left as it was, and a run
    that ends with status 1 changes no file at all and prints nothing on
    standard output; the status is 0 or 1. *)
Theorem subsetter_touches_only_output (root : Path)
    (groups : list (string * list (string * string))) (fs : gmap Path DataFrame) :
  let o := FilterVAR.main root groups fs in
  (∀ p, p ≠ FilterVAR.OUTPUT_FILE root → files o !! p = fs !! p)
  ∧ (exit_status o = 1%Z → files o = fs ∧ stdout o = [])
  ∧ (exit_status o = 0%Z → stderr o = [])
  ∧ (exit_status o = 0%Z ∨ exit_status o = 1%Z).
Proof.
  cbv zeta. unfold FilterVAR.main.
  destruct (FilterVAR.build_dataset root groups fs) as [dataset|e]; cbn.
  - split; [|split; [|split]]; [|done|done|by left].
    intros p Hp. unfold to_csv_write. by rewrite lookup_insert_ne.
  - split; [|split; [|split]]; [done|done|done|by right].
Qed.

(** X12. Columns outside the configuration do not count: removing from
    the source every column that is neither the target nor a predictor
    leaves the dataset that is built unchanged. *)
Theorem unused_columns_ignored (root : Path)
    (groups : list (string * list (string * string)))
    (fs : gmap Path DataFrame) (src : Path) (table : DataFrame) :
  FilterVAR._select_source_file root fs = Ok src →
  fs !! src = Some table →
  let keep_columns := FilterVAR.TARGET_COLUMN :: map fst (FilterVAR._column_pairs groups) in
  FilterVAR.build_dataset root groups
    (<[src := filter (λ c, c.1 ∈ keep_columns) table]> fs)
  = FilterVAR.build_dataset root groups fs.
Proof.
  intros Hsel Hsrc keep_columns. unfold FilterVAR.build_dataset.
  rewrite (select_source_insert root fs src _ Hsel), Hsel. cbn [rbind]. cbv zeta.
  fold keep_columns. destruct (decide (length keep_columns = 1)); [done|].
  unfold read_csv_usecols. rewrite lookup_insert_eq, Hsrc.
  rewrite list_filter_filter.
  rewrite (list_filter_iff _ (λ c, c.1 ∈ keep_columns)) by tauto. done.
Qed.

Lemma unused_columns_ignored_witness :
  FilterVAR._select_source_file Samples.root Samples.wvs_store
    = Ok (FilterVAR.FALLBACK_SOURCE Samples.root)
  ∧ Samples.wvs_store !! FilterVAR.FALLBACK_SOURCE Samples.root = Some Samples.wvs
  ∧ ("Q1", [VInt 1; VInt 2]) ∈ Samples.wvs
  ∧ FilterVAR.build_dataset Samples.root COLUMN_GROUPS
      (<[FilterVAR.FALLBACK_SOURCE Samples.root :=
           filter (λ c, c.1 ∈ FilterVAR.TARGET_COLUMN
                              :: map fst (FilterVAR._column_pairs COLUMN_GROUPS))
             Samples.wvs]> Samples.wvs_store)
    = FilterVAR.build_dataset Samples.root COLUMN_GROUPS Samples.wvs_store.
Proof.
  assert (Samples.wvs_store !! FilterVAR.FALLBACK_SOURCE Samples.root = Some Samples.wvs)
    as Hsrc by apply lookup_singleton_eq.
  split; [exact wvs_selected|]. split; [exact Hsrc|]. split; [left|].
  exact (unused_columns_ignored Samples.root COLUMN_GROUPS Samples.wvs_store
           (FilterVAR.FALLBACK_SOURCE Samples.root) Samples.wvs wvs_selected Hsrc).
Defined.

Lemma main_missing_status (root : Path) (groups : list (string * list (string * string)))
    (fs : gmap Path DataFrame) (src : Path) (table : DataFrame) (id0 : string) :
  FilterVAR._select_source_file root fs = Ok src →
  fs !! src = Some table →
  FilterVAR._column_pairs groups ≠ [] →
  id0 ∈ FilterVAR.TARGET_COLUMN :: map fst (FilterVAR._column_pairs groups) →
  id0 ∉ columns table →
  exit_status (FilterVAR.main root groups fs) = 1%Z.
Proof.
  intros Hsel Hsrc Hne Hin Hout.
  set (keep := FilterVAR.TARGET_COLUMN :: map fst (FilterVAR._column_pairs groups)) in *.
  destruct (validate_columns_missing keep
              (columns (filter (λ c, c.1 ∈ keep) table)) id0)
    as (listed & Hval & _); [done| |].
  { by rewrite columns_usecols. }
  unfold FilterVAR.main, FilterVAR.build_dataset. rewrite Hsel. cbn [rbind]. cbv zeta.
  rewrite decide_False.
  2:{ cbn [length]. destruct (FilterVAR._column_pairs groups); [done|]. cbn. lia. }
  unfold read_csv_usecols. rewrite Hsrc. cbn [rbind].
  fold keep. by rewrite Hval.
Qed.

(** X13. When the run succeeds: with a one-to-one configuration that
    declares a predictor and a source whose column names are distinct, the
    status is 0 exactly when every required source column is present. *)
Theorem subsetter_succeeds_iff (root : Path)
    (groups : list (string * list (string * string)))
    (fs : gmap Path DataFrame) (src : Path) (table : DataFrame) :
  FilterVAR._select_source_file root fs = Ok src →
  fs !! src = Some table →
  FilterVAR._column_pairs groups ≠ [] →
  one_to_one (all_pairs groups) →
  NoDup (columns table) →
  exit_status (FilterVAR.main root groups fs) = 0%Z
  ↔ ∀ id, id ∈ FilterVAR.TARGET_COLUMN :: map fst (FilterVAR._column_pairs groups) →
          id ∈ columns table.
Proof.
  intros Hsel Hsrc Hne Hoto Hnd. split.
  - intros Hzero id Hin. destruct (decide (id ∈ columns table)) as [|Hout]; [done|].
    rewrite (main_missing_status root groups fs src table id) in Hzero; done.
  - intros Hall. unfold FilterVAR.main.
    by rewrite (build_dataset_ok root groups fs src table).
Qed.

Lemma subsetter_succeeds_iff_witness :
  FilterVAR._select_source_file Samples.root Samples.wvs_short_store
    = Ok (FilterVAR.DEFAULT_SOURCE Samples.root)
  ∧ Samples.wvs_short_store !! FilterVAR.DEFAULT_SOURCE Samples.root
    = Some Samples.wvs_short
  ∧ FilterVAR._column_pairs COLUMN_GROUPS ≠ []
  ∧ one_to_one (all_pairs COLUMN_GROUPS)
  ∧ NoDup (columns Samples.wvs_short)
  ∧ exit_status (FilterVAR.main Samples.root COLUMN_GROUPS Samples.wvs_short_store) ≠ 0%Z.
Proof.
  assert (Samples.wvs_short_store !! FilterVAR.DEFAULT_SOURCE Samples.root
          = Some Samples.wvs_short) as Hsrc by apply lookup_singleton_eq.
  assert (FilterVAR._column_pairs COLUMN_GROUPS ≠ []) as Hne by discriminate.
  assert (NoDup (columns Samples.wvs_short)) as Hnd
    by (apply (bool_decide_unpack _); vm_compute; exact I).
  split; [exact wvs_short_selected|]. split; [exact Hsrc|]. split; [exact Hne|].
  split; [exact declared_groups_one_to_one|]. split; [exact Hnd|].
  intros Hzero.
  pose proof (proj1 (subsetter_succeeds_iff Samples.root COLUMN_GROUPS
                       Samples.wvs_short_store (FilterVAR.DEFAULT_SOURCE Samples.root)
                       Samples.wvs_short wvs_short_selected Hsrc Hne
                       declared_groups_one_to_one Hnd) Hzero "Q59") as Hq59.
  assert ("Q59" ∉ columns Samples.wvs_short) as Hout
    by (apply (bool_decide_unpack _); vm_compute; exact I).
  apply Hout, Hq59. apply (bool_decide_unpack _). vm_compute. exact I.
Defined.

(** ** Further properties of the transaction flattener *)

Lemma apply_total {A B} (f : A → result B) (xs : list A) :
  Forall (λ x, ∃ y, f x = Ok y) xs → ∃ ys, apply f xs = Ok ys.
Proof.
  induction 1 as [|x xs [y Hy] _ [ys Hys]]; [by exists []|].
  exists (y :: ys). cbn [apply]. by rewrite Hy, Hys.
Qed.

Lemma Forall2_ok_Forall {A B} (f : A → result B) (xs : list A) (ys : list B) :
  Forall2 (λ x y, f x = Ok y) xs ys → Forall (λ x, ∃ y, f x = Ok y) xs.
Proof. induction 1; constructor; eauto. Qed.

Ltac transform_inv H :=
  unfold DataPrep.transform in H;
  repeat match type of H with
         | rbind (DataPrep.assign_apply ?d ?s ?f ?df) _ = Ok _ =>
             let E := fresh "E" in
             destruct (DataPrep.assign_apply d s f df) as [?|?] eqn:E; [|discriminate H];
             cbn [rbind] in H;
             apply assign_apply_inv in E as (? & ? & ? & ? & ->)
         end;
  injection H as <-;
  repeat match goal with
         | H : getitem_column (setitem_column _ _ _) _ = _ |- _ =>
             rewrite getitem_setitem_ne in H by done
         end;
  repeat match goal with
         | H : ?a = Ok ?x, H' : ?a = Ok ?y |- _ =>
             assert (y = x) by congruence; subst y; clear H'
         end.

(** X14. When the flattener goes through: the transformations succeed
    exactly when each of the four coerced columns and the two compound
    columns is present and every one of their cells is accepted by the
    function applied to it; a single missing column or offending cell
    stops the script. *)
Theorem transform_succeeds_iff (df : DataFrame) :
  (∃ df', DataPrep.transform df = Ok df')
  ↔ (∀ field, field ∈ coerced_fields →
       ∃ cells, getitem_column df field = Ok cells
                ∧ Forall (λ x, ∃ y, DataPrep.to_float x = Ok y) cells)
    ∧ (∀ dst src i, (dst, src, i) ∈ compound_fields →
       ∃ cells, getitem_column df src = Ok cells
                ∧ Forall (λ x, ∃ y, DataPrep.split_part i x = Ok y) cells).
Proof.
  split.
  - intros [df' Htr]. destruct (transform_columns df df' Htr) as [Hco Hcp].
    rewrite Forall_forall in Hco. rewrite Forall_forall in Hcp. split.
    + intros field Hin. destruct (Hco field Hin) as (cells & cells' & Hg & _ & Hall).
      exists cells. split; [done|]. by eapply Forall2_ok_Forall.
    + intros dst src i Hin. destruct (Hcp (dst, src, i) Hin) as (cells & cells' & Hg & _ & Hall).
      exists cells. split; [done|]. by eapply Forall2_ok_Forall.
  - intros [Hco Hcp].
    destruct (Hco "estate_map_latitude") as (c1 & G1 & [r1 A1]%apply_total);
      [set_solver|].
    destruct (Hco "estate_map_longitude") as (c2 & G2 & [r2 A2]%apply_total);
      [set_solver|].
    destruct (Hco "transaction_price") as (c3 & G3 & [r3 A3]%apply_total);
      [set_solver|].
    destruct (Hco "discount_rate") as (c4 & G4 & [r4 A4]%apply_total);
      [set_solver|].
    destruct (Hcp "saleable_floor_area_per_sq_m" "saleable_floor_area" 0)
      as (c5 & G5 & [r5 A5]%apply_total); [set_solver|].
    destruct (Hcp "saleable_floor_area_per_sq_ft" "saleable_floor_area" 1)
      as (c6 & G6 & [r6 A6]%apply_total); [set_solver|].
    destruct (Hcp "transaction_price_per_sq_m" "transaction_price_per_sq" 0)
      as (c7 & G7 & [r7 A7]%apply_total); [set_solver|].
    destruct (Hcp "transaction_price_per_sq_ft" "transaction_price_per_sq" 1)
      as (c8 & G8 & [r8 A8]%apply_total); [set_solver|].
    eexists. unfold DataPrep.transform, DataPrep.assign_apply.
    rewrite G1. cbn [rbind]. rewrite A1. cbn [rbind].
    rewrite ?getitem_setitem_ne by done. rewrite G2. cbn [rbind]. rewrite A2. cbn [rbind].
    rewrite ?getitem_setitem_ne by done. rewrite G3. cbn [rbind]. rewrite A3. cbn [rbind].
    rewrite ?getitem_setitem_ne by done. rewrite G4. cbn [rbind]. rewrite A4. cbn [rbind].
    rewrite ?getitem_setitem_ne by done. rewrite G5. cbn [rbind]. rewrite A5. cbn [rbind].
    rewrite ?getitem_setitem_ne by done. rewrite G6. cbn [rbind]. rewrite A6. cbn [rbind].
    rewrite ?getitem_setitem_ne by done. rewrite G7. cbn [rbind]. rewrite A7. cbn [rbind].
    rewrite ?getitem_setitem_ne by done. rewrite G8. cbn [rbind]. rewrite A8. cbn [rbind].
    reflexivity.
Qed.

(** X15. The flattener leaves the other columns alone: a column that is
    not one of the eight assigned to, the two compound source columns
    among them, has in the result the cells it had. *)
Theorem transform_keeps_other_columns (df df' : DataFrame) (key : string) :
  DataPrep.transform df = Ok df' →
  key ∉ assigned_columns →
  getitem_column df' key = getitem_column df key.
Proof.
  intros Htr Hkey. transform_inv Htr.
  unfold assigned_columns in Hkey. cbn in Hkey.
  repeat (apply not_elem_of_cons in Hkey as [? Hkey]).
  by rewrite !getitem_setitem_ne by done.
Qed.

Lemma transform_keeps_other_columns_witness :
  ∃ df',
    DataPrep.transform Samples.transactions = Ok df'
    ∧ "id" ∉ assigned_columns
    ∧ getitem_column df' "id" = Ok [VInt 1; VInt 2; VInt 3]
    ∧ getitem_column df' "saleable_floor_area" = Ok [VStr "500/5382"; VNone; VStr ""].
Proof.
  eexists. split; [vm_compute; reflexivity|].
  assert ("id" ∉ assigned_columns) as Hid
    by (apply (bool_decide_unpack _); vm_compute; exact I).
  assert ("saleable_floor_area" ∉ assigned_columns) as Harea
    by (apply (bool_decide_unpack _); vm_compute; exact I).
  split; [exact Hid|]. split.
  - rewrite (transform_keeps_other_columns Samples.transactions _ "id");
      [reflexivity | vm_compute; reflexivity | exact Hid].
  - rewrite (transform_keeps_other_columns Samples.transactions _ "saleable_floor_area");
      [reflexivity | vm_compute; reflexivity | exact Harea].
Defined.

Lemma getitem_ok_column (df : DataFrame) (key : string) (cells : list pyval) :
  getitem_column df key = Ok cells → key ∈ columns df.
Proof.
  induction df as [|[name old] rest IH]; cbn [getitem_column columns map fst]; [done|].
  destruct (decide (name = key)) as [->|Hne]; [left|].
  intros Hg. right. by apply IH.
Qed.

Lemma columns_setitem_present (df : DataFrame) (key : string) (cells : list pyval) :
  key ∈ columns df → columns (setitem_column df key cells) = columns df.
Proof.
  induction df as [|[name old] rest IH]; cbn [setitem_column columns map fst].
  - by intros ?%elem_of_nil.
  - intros Hin. destruct (decide (name = key)) as [->|Hne]; [done|].
    cbn [map fst]. f_equal. apply IH.
    apply elem_of_cons in Hin as [?|?]; [congruence|done].
Qed.

Lemma columns_setitem_absent (df : DataFrame) (key : string) (cells : list pyval) :
  key ∉ columns df → columns (setitem_column df key cells) = columns df ++ [key].
Proof.
  induction df as [|[name old] rest IH]; cbn [setitem_column columns map fst]; [done|].
  intros [Hne Hn]%not_elem_of_cons. rewrite decide_False by done.
  cbn [map fst]. cbn [app]. f_equal. by apply IH.
Qed.

Lemma assign_apply_columns dst src f (df df' : DataFrame) :
  DataPrep.assign_apply dst src f df = Ok df' →
  src ∈ columns df
  ∧ columns df' = if decide (dst ∈ columns df) then columns df else columns df ++ [dst].
Proof.
  intros (cells & cells' & Hg & _ & ->)%assign_apply_inv.
  split; [by eapply getitem_ok_column|].
  destruct (decide (dst ∈ columns df)).
  - by apply columns_setitem_present.
  - by apply columns_setitem_absent.
Qed.

(** X16. Where the derived columns go: the four coerced columns keep
    their place, and when the source has no column by the names of the
    four derived ones these are added after the last column, in the order
    of the script. *)
Theorem transform_column_order (df df' : DataFrame) :
  DataPrep.transform df = Ok df' →
  (∀ t, t ∈ compound_fields → t.1.1 ∉ columns df) →
  columns df'
  = columns df ++ [ "saleable_floor_area_per_sq_m"; "saleable_floor_area_per_sq_ft";
                    "transaction_price_per_sq_m"; "transaction_price_per_sq_ft" ].
Proof.
  intros Htr Hnew.
  assert ("saleable_floor_area_per_sq_m" ∉ columns df) as N1
    by (apply (Hnew ("saleable_floor_area_per_sq_m", "saleable_floor_area", 0));
        set_solver).
  assert ("saleable_floor_area_per_sq_ft" ∉ columns df) as N2
    by (apply (Hnew ("saleable_floor_area_per_sq_ft", "saleable_floor_area", 1));
        set_solver).
  assert ("transaction_price_per_sq_m" ∉ columns df) as N3
    by (apply (Hnew ("transaction_price_per_sq_m", "transaction_price_per_sq", 0));
        set_solver).
  assert ("transaction_price_per_sq_ft" ∉ columns df) as N4
    by (apply (Hnew ("transaction_price_per_sq_ft", "transaction_price_per_sq", 1));
        set_solver).
  unfold DataPrep.transform in Htr.
  destruct (DataPrep.assign_apply _ _ _ df) as [d1|] eqn:E1; [|done].
  cbn [rbind] in Htr.
  destruct (DataPrep.assign_apply _ _ _ d1) as [d2|] eqn:E2; [|done].
  cbn [rbind] in Htr.
  destruct (DataPrep.assign_apply _ _ _ d2) as [d3|] eqn:E3; [|done].
  cbn [rbind] in Htr.
  destruct (DataPrep.assign_apply _ _ _ d3) as [d4|] eqn:E4; [|done].
  cbn [rbind] in Htr.
  destruct (DataPrep.assign_apply _ _ _ d4) as [d5|] eqn:E5; [|done].
  cbn [rbind] in Htr.
  destruct (DataPrep.assign_apply _ _ _ d5) as [d6|] eqn:E6; [|done].
  cbn [rbind] in Htr.
  destruct (DataPrep.assign_apply _ _ _ d6) as [d7|] eqn:E7; [|done].
  cbn [rbind] in Htr.
  destruct (DataPrep.assign_apply _ _ _ d7) as [d8|] eqn:E8; [|done].
  cbn [rbind] in Htr. injection Htr as <-.
  apply assign_apply_columns in E1 as [S1 C1]. rewrite decide_True in C1 by done.
  apply assign_apply_columns in E2 as [S2 C2]. rewrite decide_True in C2 by done.
  apply assign_apply_columns in E3 as [S3 C3]. rewrite decide_True in C3 by done.
  apply assign_apply_columns in E4 as [S4 C4]. rewrite decide_True in C4 by done.
  apply assign_apply_columns in E5 as [_ C5].
  apply assign_apply_columns in E6 as [_ C6].
  apply assign_apply_columns in E7 as [_ C7].
  apply assign_apply_columns in E8 as [_ C8].
  rewrite C4, C3, C2, C1 in C5. rewrite decide_False in C5 by done.
  rewrite C5 in C6. rewrite decide_False in C6.
  2:{ rewrite elem_of_app, list_elem_of_singleton. by intros [?|?]. }
  rewrite C6 in C7. rewrite decide_False in C7.
  2:{ rewrite !elem_of_app, !list_elem_of_singleton. by intros [[?|?]|?]. }
  rewrite C7 in C8. rewrite decide_False in C8.
  2:{ rewrite !elem_of_app, !list_elem_of_singleton. by intros [[[?|?]|?]|?]. }
  rewrite C8. by rewrite <- !(assoc_L (++)).
Qed.

Lemma transform_column_order_witness :
  ∃ df',
    DataPrep.transform Samples.transactions = Ok df'
    ∧ (∀ t, t ∈ compound_fields → t.1.1 ∉ columns Samples.transactions)
    ∧ columns df'
      = [ "id"; "estate_map_latitude"; "estate_map_longitude"; "transaction_price";
          "discount_rate"; "saleable_floor_area"; "transaction_price_per_sq";
          "saleable_floor_area_per_sq_m"; "saleable_floor_area_per_sq_ft";
          "transaction_price_per_sq_m"; "transaction_price_per_sq_ft" ].
Proof.
  eexists. split; [vm_compute; reflexivity|].
  assert (∀ t, t ∈ compound_fields → t.1.1 ∉ columns Samples.transactions) as Hnew
    by (apply Forall_forall; apply (bool_decide_unpack _); vm_compute; exact I).
  split; [exact Hnew|].
  rewrite (transform_column_order Samples.transactions _);
    [reflexivity | vm_compute; reflexivity | exact Hnew].
Defined.

(** X17. Parts after the second are ignored: a cell [a/b/rest] gives
    in both derived columns what the cell [a/b] gives, whatever follows
    the second slash. *)
Theorem compound_extra_parts_ignored (a b rest : string) :
  contains_char "/" a = false →
  contains_char "/" b = false →
  DataPrep.split_part 0 (VStr (a +:+ "/" +:+ b +:+ "/" +:+ rest))
    = DataPrep.split_part 0 (VStr (a +:+ "/" +:+ b))
  ∧ DataPrep.split_part 1 (VStr (a +:+ "/" +:+ b +:+ "/" +:+ rest))
    = DataPrep.split_part 1 (VStr (a +:+ "/" +:+ b)).
Proof.
  intros Ha Hb.
  assert (split "/" (a +:+ "/" +:+ b +:+ "/" +:+ rest) = a :: b :: split "/" rest) as H3.
  { change (a +:+ "/" +:+ b +:+ "/" +:+ rest) with (a +:+ String "/" (b +:+ String "/" rest)).
    by rewrite !split_first. }
  assert (split "/" (a +:+ "/" +:+ b) = [a; b]) as H2.
  { change (a +:+ "/" +:+ b) with (a +:+ String "/" b).
    by rewrite split_first, split_no_sep. }
  unfold DataPrep.split_part.
  rewrite !truthy_nonempty by (by destruct a).
  cbn [split_slash rbind]. rewrite H3, H2. by split.
Qed.

Lemma compound_extra_parts_ignored_witness :
  contains_char "/" "1" = false
  ∧ contains_char "/" "2" = false
  ∧ DataPrep.split_part 1 (VStr "1/2/3") = DataPrep.split_part 1 (VStr "1/2").
Proof.
  assert (contains_char "/" "1" = false) as Ha by reflexivity.
  assert (contains_char "/" "2" = false) as Hb by reflexivity.
  split; [exact Ha|]. split; [exact Hb|].
  exact (proj2 (compound_extra_parts_ignored "1" "2" "3" Ha Hb)).
Defined.

(** X18. A compound field without a slash: the first derived value is
    [float] of the whole cell, and the second is never computed: indexing
    the second part raises [IndexError], even when the cell is a number. *)
Theorem compound_without_slash (s : string) :
  s ≠ "" →
  contains_char "/" s = false →
  DataPrep.split_part 0 (VStr s) = rmap VFloat (float_of_str s)
  ∧ DataPrep.split_part 1 (VStr s) = Raise (IndexError "list index out of range").
Proof.
  intros Hne Hno. unfold DataPrep.split_part.
  rewrite truthy_nonempty by done. cbn [split_slash rbind].
  by rewrite split_no_sep.
Qed.

Lemma compound_without_slash_witness :
  "500" ≠ ""
  ∧ contains_char "/" "500" = false
  ∧ DataPrep.split_part 0 (VStr "500") = Ok (VFloat (FNum 500))
  ∧ DataPrep.split_part 1 (VStr "500") = Raise (IndexError "list index out of range").
Proof.
  assert ("500" ≠ "") as Hne by discriminate.
  assert (contains_char "/" "500" = false) as Hno by reflexivity.
  split; [exact Hne|]. split; [exact Hno|].
  destruct (compound_without_slash "500" Hne Hno) as [H0 H1].
  split; [|exact H1]. rewrite H0. vm_compute. reflexivity.
Defined.

(** X19. A compound field that is not a string: a truthy cell of
    another type (a non-zero number, [True], NaN, a non-empty list) has no
    [split], and the call raises [AttributeError] naming the type. *)
Theorem compound_non_string_raises (i : nat) (x : pyval) :
  truthy x = true →
  (∀ s, x ≠ VStr s) →
  DataPrep.split_part i x
  = Raise (AttributeError ("'" +:+ type_name x +:+ "' object has no attribute 'split'")).
Proof.
  intros Ht Hns. unfold DataPrep.split_part. rewrite Ht.
  destruct x; try done. by destruct (Hns s).
Qed.

Lemma compound_non_string_raises_witness :
  truthy (VFloat FNaN) = true
  ∧ (∀ s, VFloat FNaN ≠ VStr s)
  ∧ DataPrep.split_part 0 (VFloat FNaN)
    = Raise (AttributeError "'float' object has no attribute 'split'").
Proof.
  assert (truthy (VFloat FNaN) = true) as Ht by reflexivity.
  assert (∀ s, VFloat FNaN ≠ VStr s) as Hns by discriminate.
  split; [exact Ht|]. split; [exact Hns|].
  exact (compound_non_string_raises 0 (VFloat FNaN) Ht Hns).
Defined.

(** X20. Coercing twice: applied to a value it has produced, the
    coercion gives the value back, except that a zero, which it had read
    from a string such as ["0"], now becomes [None]. *)
Theorem to_float_twice (x y : pyval) :
  DataPrep.to_float x = Ok y →
  (y = VNone ∨ ∃ f, y = VFloat f)
  ∧ DataPrep.to_float y = Ok (if truthy y then y else VNone).
Proof.
  unfold DataPrep.to_float at 1. intros Hy. split.
  - destruct (truthy x); [|left; congruence].
    unfold rmap in Hy. destruct (float x) as [f|]; cbn [rbind] in Hy; [|done].
    right. exists f. congruence.
  - unfold DataPrep.to_float. destruct (truthy y) eqn:Ht; [|done].
    destruct (truthy x); [|by simplify_eq].
    unfold rmap in Hy. destruct (float x) as [f|]; cbn [rbind] in Hy; [|done].
    by simplify_eq.
Qed.

Lemma to_float_twice_witness :
  DataPrep.to_float (VStr "0") = Ok (VFloat (FNum 0))
  ∧ DataPrep.to_float (VFloat (FNum 0)) = Ok VNone.
Proof.
  assert (DataPrep.to_float (VStr "0") = Ok (VFloat (FNum 0))) as Hzero
    by (vm_compute; reflexivity).
  split; [exact Hzero|].
  exact (proj2 (to_float_twice (VStr "0") (VFloat (FNum 0)) Hzero)).
Defined.

Lemma getitem_aligned (df : DataFrame) (key : string) (cells : list pyval) (n : nat) :
  Forall (λ c, length c.2 = n) df → getitem_column df key = Ok cells → length cells = n.
Proof.
  induction 1 as [|[name old] rest Hlen _ IH]; cbn [getitem_column]; [done|].
  destruct (decide (name = key)); [|done]. by intros [= <-].
Qed.

Lemma setitem_Forall_length (df : DataFrame) (key : string) (cells : list pyval) (n : nat) :
  Forall (λ c, length c.2 = n) df → length cells = n →
  Forall (λ c, length c.2 = n) (setitem_column df key cells).
Proof.
  intros Hall Hlen.
  induction Hall as [|[name old] rest Hold Hrest IH]; cbn [setitem_column].
  - by constructor.
  - destruct (decide (name = key)); by constructor.
Qed.

Lemma Forall_length_aligned (df : DataFrame) (n : nat) :
  df ≠ [] → Forall (λ c, length c.2 = n) df → aligned df ∧ nrows df = n.
Proof.
  intros Hne Hall. assert (nrows df = n) as Hn.
  { destruct Hall as [|[name cells] rest Hlen _]; done. }
  split; [|done]. unfold aligned. by rewrite Hn.
Qed.

Lemma assign_apply_aligned dst src f (df df' : DataFrame) :
  aligned df → DataPrep.assign_apply dst src f df = Ok df' →
  aligned df' ∧ nrows df' = nrows df.
Proof.
  intros Hal (cells & cells' & Hg & Hall & ->)%assign_apply_inv.
  apply Forall_length_aligned.
  - destruct df as [|[name old] rest]; cbn [setitem_column]; [done|].
    by destruct (decide (name = dst)).
  - apply setitem_Forall_length; [done|].
    rewrite <- (Forall2_length _ _ _ Hall). by eapply getitem_aligned.
Qed.

(** X22. The flattener keeps the rows: on a frame whose columns all
    have the same number of cells, the result has the same number of rows
    and all its columns, the derived ones included, have that many
    cells. *)
Theorem transform_keeps_rows (df df' : DataFrame) :
  aligned df →
  DataPrep.transform df = Ok df' →
  aligned df' ∧ nrows df' = nrows df.
Proof.
  intros Hal Htr. unfold DataPrep.transform in Htr.
  destruct (DataPrep.assign_apply _ _ _ df) as [d1|] eqn:E1; [|done].
  cbn [rbind] in Htr. apply assign_apply_aligned in E1 as [A1 R1]; [|done].
  destruct (DataPrep.assign_apply _ _ _ d1) as [d2|] eqn:E2; [|done].
  cbn [rbind] in Htr. apply assign_apply_aligned in E2 as [A2 R2]; [|done].
  destruct (DataPrep.assign_apply _ _ _ d2) as [d3|] eqn:E3; [|done].
  cbn [rbind] in Htr. apply assign_apply_aligned in E3 as [A3 R3]; [|done].
  destruct (DataPrep.assign_apply _ _ _ d3) as [d4|] eqn:E4; [|done].
  cbn [rbind] in Htr. apply assign_apply_aligned in E4 as [A4 R4]; [|done].
  destruct (DataPrep.assign_apply _ _ _ d4) as [d5|] eqn:E5; [|done].
  cbn [rbind] in Htr. apply assign_apply_aligned in E5 as [A5 R5]; [|done].
  destruct (DataPrep.assign_apply _ _ _ d5) as [d6|] eqn:E6; [|done].
  cbn [rbind] in Htr. apply assign_apply_aligned in E6 as [A6 R6]; [|done].
  destruct (DataPrep.assign_apply _ _ _ d6) as [d7|] eqn:E7; [|done].
  cbn [rbind] in Htr. apply assign_apply_aligned in E7 as [A7 R7]; [|done].
  destruct (DataPrep.assign_apply _ _ _ d7) as [d8|] eqn:E8; [|done].
  cbn [rbind] in Htr. apply assign_apply_aligned in E8 as [A8 R8]; [|done].
  injection Htr as <-. split; [done|]. congruence.
Qed.

Lemma transform_keeps_rows_witness :
  ∃ df',
    aligned Samples.transactions
    ∧ DataPrep.transform Samples.transactions = Ok df'
    ∧ aligned df' ∧ nrows df' = 3.
Proof.
  assert (aligned Samples.transactions) as Hal by (repeat constructor).
  eexists. split; [exact Hal|]. split; [vm_compute; reflexivity|].
  refine (transform_keeps_rows Samples.transactions _ Hal _).
  vm_compute; reflexivity.
Defined.

(** ** The column dropper on the text of the files *)

Section filterR_text_lemmas.
Variable root : Path.
Variable infer : list string → list pyval.
Variable format : pyval → string.
Implicit Types (fs : gmap Path csv_file) (table kept : CsvTable) (labels : list string).

Local Notation read_block := (FilterRText.read_block infer).
Local Notation read_csv_blocks := (FilterRText.read_csv_blocks infer).
Local Notation render := (FilterRText.render format).
Local Notation write_chunks := (FilterRText.write_chunks root format).
Local Notation OUTPUT := (FilterR.OUTPUT_FILE root).
Local Notation SOURCE := (FilterR.SOURCE_FILE root).

Lemma drop_read_block (c : nat) table labels (k : nat) :
  drop_columns (read_block c table k) labels
  = read_block c (filter (λ col, col.1 ∉ labels) table) k.
Proof.
  unfold drop_columns, FilterRText.read_block.
  induction table as [|col table IH]; [done|].
  cbn [map]. rewrite !filter_cons; cbn [fst map].
  destruct (decide (col.1 ∉ labels)); cbn [map]; by rewrite IH.
Qed.

Lemma reread_S (c n : nat) (cells : list string) :
  reread infer format c (S n) cells
  = reread infer format c n cells ++ map format (infer (block c n cells)).
Proof.
  unfold reread. rewrite seq_S, flat_map_app. cbn [flat_map plus].
  by rewrite app_nil_r.
Qed.

Lemma append_text_block (c k : nat) kept :
  append_text (map (λ col, (col.1, reread infer format c k col.2)) kept)
    (render (read_block c kept k))
  = Some (map (λ col, (col.1, reread infer format c (S k) col.2)) kept).
Proof.
  unfold FilterRText.render, FilterRText.read_block.
  induction kept as [|[name cells] kept IH]; [done|].
  cbn [map append_text fst snd]. rewrite IH. cbn [mbind option_bind].
  by rewrite reread_S.
Qed.

Lemma write_text_chunks_rest labels (c : nat) table fs (m k : nat) :
  let kept := filter (λ col, col.1 ∉ labels) table in
  fs !! OUTPUT = Some (Readable (map (λ col, (col.1, reread infer format c k col.2)) kept)) →
  write_chunks labels (map (read_block c table) (seq k m)) false fs
  = Some (<[OUTPUT := Readable (map (λ col, (col.1, reread infer format c (k + m) col.2))
                                    kept)]> fs).
Proof.
  cbv zeta. revert fs k. induction m as [|m IH]; intros fs k Hout.
  - cbn. rewrite Nat.add_0_r. by rewrite insert_id.
  - replace (k + S m) with (S k + m) by lia.
    cbn [seq map FilterRText.write_chunks]. unfold FilterRText.to_csv_append.
    rewrite Hout. rewrite drop_read_block, append_text_block.
    cbn [mbind option_bind].
    rewrite IH by apply lookup_insert_eq.
    by rewrite insert_insert_eq.
Qed.

Lemma write_text_chunks_all labels (c : nat) table fs :
  0 < c →
  write_chunks labels (read_csv_blocks table c) true fs
  = Some (<[OUTPUT :=
             Readable (map (λ col, (col.1, reread infer format c
                                             (chunk_count (text_nrows table) c) col.2))
                         (filter (λ col, col.1 ∉ labels) table))]> fs).
Proof.
  intros Hc. unfold FilterRText.read_csv_blocks.
  pose proof (chunk_count_pos (text_nrows table) c Hc) as Hpos.
  destruct (chunk_count (text_nrows table) c) as [|m]; [lia|].
  cbn [seq map FilterRText.write_chunks]. cbn [mbind option_bind].
  unfold FilterRText.to_csv_write.
  rewrite (write_text_chunks_rest labels c table _ m 1).
  - by rewrite insert_insert_eq.
  - rewrite lookup_insert_eq, drop_read_block. do 2 f_equal.
    unfold FilterRText.render, FilterRText.read_block. rewrite map_map.
    apply map_ext. intros [name cells]. cbn [fst snd].
    unfold reread. cbn [seq flat_map]. by rewrite app_nil_r.
Qed.

Lemma reread_stable (c n : nat) (cells : list string) :
  (∀ k, k < n → map format (infer (block c k cells)) = block c k cells) →
  reread infer format c n cells = take (n * c) cells.
Proof.
  induction n as [|n IH]; intros Hstable; [done|].
  rewrite reread_S, IH, Hstable by (intros; apply Hstable; lia) || lia.
  unfold block. rewrite take_take_drop. f_equal. lia.
Qed.

Lemma drop_set_text table suffix :
  filter (λ col : string * list string,
            col.1 ∉ FilterR._columns_to_drop (map fst table) suffix) table
  = filter (λ col, endswith col.1 suffix = false) table.
Proof.
  unfold FilterR._columns_to_drop. apply filter_ext_elem. intros c Hc.
  rewrite list_elem_of_filter, <- not_true_iff_false. split.
  - intros Hn He. apply Hn. split; [done|]. to_fmap. by apply list_elem_of_fmap_2.
  - intros Hn [He _]. done.
Qed.

Lemma first_block_columns table (c : nat) :
  0 < c →
  ∃ chunk, head (read_csv_blocks table c) = Some chunk ∧ columns chunk = map fst table.
Proof.
  intros Hc. unfold FilterRText.read_csv_blocks.
  pose proof (chunk_count_pos (text_nrows table) c Hc) as Hpos.
  destruct (chunk_count (text_nrows table) c) as [|m]; [lia|].
  eexists. split; [done|]. unfold columns, FilterRText.read_block.
  rewrite map_map. by apply map_ext.
Qed.

(** What [main] does on a source the reader parses. *)
Lemma main_text_readable fs table :
  fs !! SOURCE = Some (Readable table) →
  FilterRText.main root infer format fs =
    let out1 := "Loading column headers from Q1_Q260_filtered_30%row_and_column.csv..." in
    let columns_to_drop := FilterR._columns_to_drop (map fst table) "R" in
    if decide (columns_to_drop = []) then
      Some (Run (Returned 0) fs
              [out1; "No columns ending with 'R' found; nothing to filter."] [])
    else
      Some (Run (Returned 0)
              (<[OUTPUT :=
                   Readable (map (λ col, (col.1, reread infer format FilterR.CHUNK_SIZE
                                                   (chunk_count (text_nrows table)
                                                      FilterR.CHUNK_SIZE) col.2))
                               (filter (λ col, endswith col.1 "R" = false) table))]> fs)
              [out1;
               "Dropping columns (sample): " +:+ join ", " (take 5 columns_to_drop)
               +:+ (if decide (5 < length columns_to_drop) then "..." else "");
               "Filtered dataset written to Q1_Q260_filtered_30%row_and_column_no_R.csv with "
               +:+ str_nat (length columns_to_drop) +:+ " columns removed."] []).
Proof.
  intros Hsrc. unfold FilterRText.main. rewrite Hsrc.
  destruct (first_block_columns table FilterR.CHUNK_SIZE CHUNK_SIZE_pos)
    as (chunk & -> & Hcols).
  cbn [mbind option_bind]. cbv zeta. rewrite Hcols.
  rewrite source_file_name, dropper_output_file_name.
  destruct (decide (FilterR._columns_to_drop (map fst table) "R" = [])); [done|].
  unfold FilterRText._write_filtered_csv. rewrite Hsrc.
  rewrite write_text_chunks_all by apply CHUNK_SIZE_pos.
  cbn [fmap option_fmap option_map mbind option_bind].
  by rewrite drop_set_text.
Qed.
End filterR_text_lemmas.

Lemma names_of_kept (table : CsvTable) (suffix : string) :
  map fst (filter (λ col : string * list string, endswith col.1 suffix = false) table)
  = filter (λ name, endswith name suffix = false) (map fst table).
Proof.
  induction table as [|col table IH]; [done|].
  cbn [map]. rewrite !filter_cons.
  destruct (decide (endswith col.1 suffix = false)); cbn [map]; by rewrite IH.
Qed.

(** C1, amended. The output file holds exactly the columns of the source
    whose name does not end with the suffix, in their original order, and
    its rows are those of the source in their order, block after block;
    each cell is the text the writer gives to the value the reader
    inferred for it within its block of [CHUNK_SIZE] rows.  The cells are
    those of the source when, on every block of every kept column, writing
    what was read gives the text back. *)
Theorem column_dropper_text_correct (root : Path) (infer : list string → list pyval)
    (format : pyval → string) (fs : gmap Path csv_file) (table : CsvTable)
    (suffix : string) :
  fs !! FilterR.SOURCE_FILE root = Some (Readable table) →
  text_aligned table →
  let kept := filter (λ col, endswith col.1 suffix = false) table in
  let blocks := chunk_count (text_nrows table) FilterR.CHUNK_SIZE in
  let out := map (λ col, (col.1, reread infer format FilterR.CHUNK_SIZE blocks col.2)) kept in
  FilterRText._write_filtered_csv root infer format
    (FilterR._columns_to_drop (map fst table) suffix) fs
  = Some (Written (<[FilterR.OUTPUT_FILE root := Readable out]> fs))
  ∧ map fst out = filter (λ name, endswith name suffix = false) (map fst table)
  ∧ ((∀ col k, col ∈ kept → k < blocks →
        map format (infer (block FilterR.CHUNK_SIZE k col.2))
        = block FilterR.CHUNK_SIZE k col.2) →
     out = kept).
Proof.
  intros Hsrc Hal kept blocks out. split; [|split].
  - unfold FilterRText._write_filtered_csv. rewrite Hsrc.
    rewrite write_text_chunks_all by apply CHUNK_SIZE_pos.
    cbn [fmap option_fmap option_map]. by rewrite drop_set_text.
  - unfold out. rewrite map_map. cbn [fst]. apply names_of_kept.
  - intros Hstable. unfold out. rewrite <- (map_id kept) at 2.
    apply map_ext_in. intros [name cells] Hin%list_elem_of_In. cbn [fst snd]. f_equal.
    rewrite reread_stable by (intros k Hk; by apply (Hstable (name, cells) k)).
    apply take_ge.
    assert (length cells = text_nrows table) as ->.
    { unfold text_aligned in Hal. rewrite Forall_forall in Hal.
      apply list_elem_of_filter in Hin as [_ Hin]. by apply (Hal (name, cells)). }
    apply chunk_count_covers, CHUNK_SIZE_pos.
Qed.

Lemma tidy_source :
  Samples.tidy_store !! FilterR.SOURCE_FILE Samples.root = Some (Readable Samples.tidy).
Proof. apply lookup_singleton_eq. Qed.

Lemma column_dropper_text_correct_witness :
  Samples.tidy_store !! FilterR.SOURCE_FILE Samples.root = Some (Readable Samples.tidy)
  ∧ text_aligned Samples.tidy
  ∧ FilterRText._write_filtered_csv Samples.root infer_int_or_text format_int_or_text
      (FilterR._columns_to_drop (map fst Samples.tidy) "R") Samples.tidy_store
    = Some (Written (<[FilterR.OUTPUT_FILE Samples.root :=
                         Readable [ ("id", ["1"; "2"]); ("name", ["ann"; "bob"]) ]]>
                       Samples.tidy_store)).
Proof.
  assert (text_aligned Samples.tidy) as Hal by (repeat constructor).
  split; [exact tidy_source|]. split; [exact Hal|].
  destruct (column_dropper_text_correct Samples.root infer_int_or_text format_int_or_text
              Samples.tidy_store Samples.tidy "R" tidy_source Hal) as (Hrun & _ & _).
  etrans; [exact Hrun|]. do 4 f_equal; vm_compute; reflexivity.
Defined.

(** C1 as stated fails: the cells of a kept column are not always those
    of the source.  A column of codes with leading zeros is read as a
    column of integers and written without the zeros; and what is written
    depends on where the blocks end: with the code [x] in the same block
    the column is text and is written as it was. *)
Lemma leading_zeros_rewritten :
  FilterRText._write_filtered_csv Samples.root infer_int_or_text format_int_or_text
    (FilterR._columns_to_drop (map fst Samples.codes) "R") Samples.codes_store
  = Some (Written (<[FilterR.OUTPUT_FILE Samples.root :=
                       Readable [ ("id", ["1"; "2"]); ("name", ["ann"; "bob"]) ]]>
                     Samples.codes_store))
  ∧ [ ("id", ["1"; "2"]); ("name", ["ann"; "bob"]) ]
    ≠ filter (λ col, endswith col.1 "R" = false) Samples.codes
  ∧ FilterRText.write_chunks Samples.root format_int_or_text ["B_R"]
      (FilterRText.read_csv_blocks infer_int_or_text Samples.mixed 2) true ∅
    = Some (<[FilterR.OUTPUT_FILE Samples.root :=
                Readable [ ("id", ["1"; "2"; "x"]) ]]> ∅)
  ∧ FilterRText.write_chunks Samples.root format_int_or_text ["B_R"]
      (FilterRText.read_csv_blocks infer_int_or_text Samples.mixed 3) true ∅
    = Some (<[FilterR.OUTPUT_FILE Samples.root :=
                Readable [ ("id", ["01"; "02"; "x"]) ]]> ∅).
Proof.
  split; [|split; [|split]].
  - unfold FilterRText._write_filtered_csv, Samples.codes_store.
    rewrite lookup_singleton_eq.
    rewrite write_text_chunks_all by apply CHUNK_SIZE_pos.
    cbn [fmap option_fmap option_map]. do 4 f_equal; vm_compute; reflexivity.
  - vm_compute. discriminate.
  - rewrite write_text_chunks_all by lia. do 3 f_equal; vm_compute; reflexivity.
  - rewrite write_text_chunks_all by lia. do 3 f_equal; vm_compute; reflexivity.
Qed.



(** X4. A run that has something to drop: on a source the reader parses
    and in which some column ends in [R], the run ends with status 0, the
    output file holds the kept columns as the blocks were read and
    written, and standard output carries the three progress lines: at most
    five dropped names, followed by dots when there are more, and the
    number of columns removed. *)
Theorem main_writes_filtered_text (root : Path) (infer : list string → list pyval)
    (format : pyval → string) (fs : gmap Path csv_file) (table : CsvTable) :
  fs !! FilterR.SOURCE_FILE root = Some (Readable table) →
  (∃ name, name ∈ map fst table ∧ endswith name "R" = true) →
  let dropped := FilterR._columns_to_drop (map fst table) "R" in
  let blocks := chunk_count (text_nrows table) FilterR.CHUNK_SIZE in
  FilterRText.main root infer format fs
  = Some (Run (Returned 0)
            (<[FilterR.OUTPUT_FILE root :=
                 Readable (map (λ col, (col.1, reread infer format FilterR.CHUNK_SIZE
                                                 blocks col.2))
                             (filter (λ col, endswith col.1 "R" = false) table))]> fs)
            [ "Loading column headers from Q1_Q260_filtered_30%row_and_column.csv...";
              "Dropping columns (sample): " +:+ join ", " (take 5 dropped)
              +:+ (if decide (5 < length dropped) then "..." else "");
              "Filtered dataset written to Q1_Q260_filtered_30%row_and_column_no_R.csv with "
              +:+ str_nat (length dropped) +:+ " columns removed." ] []).
Proof.
  intros Hsrc (name & Hin & Hends) dropped blocks.
  rewrite (main_text_readable root infer format fs table Hsrc). cbv zeta.
  rewrite decide_False; [done|].
  intros Hnil. rewrite columns_to_drop_nil in Hnil.
  specialize (Hnil name Hin). congruence.
Qed.

Lemma main_writes_filtered_text_witness :
  Samples.codes_store !! FilterR.SOURCE_FILE Samples.root = Some (Readable Samples.codes)
  ∧ (∃ name, name ∈ map fst Samples.codes ∧ endswith name "R" = true)
  ∧ FilterRText.main Samples.root infer_int_or_text format_int_or_text Samples.codes_store
    = Some (Run (Returned 0)
              (<[FilterR.OUTPUT_FILE Samples.root :=
                   Readable [ ("id", ["1"; "2"]); ("name", ["ann"; "bob"]) ]]>
                 Samples.codes_store)
              [ "Loading column headers from Q1_Q260_filtered_30%row_and_column.csv...";
                "Dropping columns (sample): B_R";
                "Filtered dataset written to Q1_Q260_filtered_30%row_and_column_no_R.csv with 1 columns removed." ]
              []).
Proof.
  assert (Samples.codes_store !! FilterR.SOURCE_FILE Samples.root
          = Some (Readable Samples.codes)) as Hsrc by apply lookup_singleton_eq.
  assert (∃ name, name ∈ map fst Samples.codes ∧ endswith name "R" = true) as Hex.
  { exists "B_R". split; [|reflexivity]. apply (bool_decide_unpack _). vm_compute. exact I. }
  split; [exact Hsrc|]. split; [exact Hex|].
  etrans; [exact (main_writes_filtered_text Samples.root infer_int_or_text
                    format_int_or_text Samples.codes_store Samples.codes Hsrc Hex)|].
  repeat f_equal; vm_compute; reflexivity.
Defined.

(** X6. When the block size does not matter: read in blocks of any
    positive size, an aligned source is written out as its kept columns,
    cell for cell, provided that on every block of every kept column
    writing what was read gives the text back.  (Without that proviso the
    file written depends on where the blocks end.) *)
Theorem block_size_irrelevant_when_stable (root : Path) (infer : list string → list pyval)
    (format : pyval → string) (labels : list string) (c : nat)
    (table : CsvTable) (fs : gmap Path csv_file) :
  0 < c →
  text_aligned table →
  (∀ col k, col ∈ table → col.1 ∉ labels → k < chunk_count (text_nrows table) c →
     map format (infer (block c k col.2)) = block c k col.2) →
  FilterRText.write_chunks root format labels
    (FilterRText.read_csv_blocks infer table c) true fs
  = Some (<[FilterR.OUTPUT_FILE root :=
              Readable (filter (λ col, col.1 ∉ labels) table)]> fs).
Proof.
  intros Hc Hal Hstable. rewrite write_text_chunks_all by done. do 3 f_equal.
  rewrite <- (map_id (filter _ table)) at 2.
  apply map_ext_in. intros [name cells] Hin%list_elem_of_In. cbn [fst snd]. f_equal.
  apply list_elem_of_filter in Hin as [Hkeep Hin].
  rewrite reread_stable by (intros k Hk; by apply (Hstable (name, cells) k)).
  apply take_ge.
  assert (length cells = text_nrows table) as ->.
  { unfold text_aligned in Hal. rewrite Forall_forall in Hal. by apply (Hal (name, cells)). }
  by apply chunk_count_covers.
Qed.

Lemma block_size_irrelevant_when_stable_witness :
  0 < 1
  ∧ text_aligned Samples.tidy
  ∧ (∀ col k, col ∈ Samples.tidy → col.1 ∉ ["B_R"] →
       k < chunk_count (text_nrows Samples.tidy) 1 →
       map format_int_or_text (infer_int_or_text (block 1 k col.2)) = block 1 k col.2)
  ∧ FilterRText.write_chunks Samples.root format_int_or_text ["B_R"]
      (FilterRText.read_csv_blocks infer_int_or_text Samples.tidy 1) true ∅
    = Some (<[FilterR.OUTPUT_FILE Samples.root :=
                Readable [ ("id", ["1"; "2"]); ("name", ["ann"; "bob"]) ]]> ∅).
Proof.
  assert (0 < 1) as Hc by lia.
  assert (text_aligned Samples.tidy) as Hal by (repeat constructor).
  assert (∀ col k, col ∈ Samples.tidy → col.1 ∉ ["B_R"] →
            k < chunk_count (text_nrows Samples.tidy) 1 →
            map format_int_or_text (infer_int_or_text (block 1 k col.2)) = block 1 k col.2)
    as Hstable.
  { intros col k Hcol _ Hk. change (chunk_count (text_nrows Samples.tidy) 1) with 2 in Hk.
    assert (k = 0 ∨ k = 1) as [-> | ->] by lia;
      repeat (apply elem_of_cons in Hcol as [-> | Hcol]; [vm_compute; reflexivity|]);
      by apply elem_of_nil in Hcol. }
  split; [exact Hc|]. split; [exact Hal|]. split; [exact Hstable|].
  exact (block_size_irrelevant_when_stable Samples.root infer_int_or_text format_int_or_text
           ["B_R"] 1 Samples.tidy ∅ Hc Hal Hstable).
Defined.
